(** * Inference-server discovery and routing (webapp/lib/db/inference-host-source.ts)

    A shallow embedding of the discovery cache, the model matcher, the host
    selectors and the admin route of the webapp, together with the properties
    the specification states about them.

    Conventions of the embedding.
    - A JavaScript string is a [string]: a sequence of code units, each read
      as a code unit in U+0000..U+00FF.
    - Numbers that the code only uses as integers (ports, epoch
      milliseconds, array indices, HTTP status codes) are [Z] or [nat].
    - The module-level variables [_cachedServers] and [_lastDiscovery] are the
      fields of an explicit [Cache] that every operation threads through.
    - What the code gets from outside (the clock, the network, the random
      source, the database and the two imported helpers) is passed in.
    - A call runs from start to end before the next one starts; calls that
      overlap in time are not covered. *)

From Stdlib Require Import ZArith NArith Arith List String Ascii Bool Lia.
From Stdlib Require Import Permutation.
From Stdlib Require Import Numbers.DecimalString.
From Stdlib Require QArith_base.
Import ListNotations.

Local Open Scope string_scope.
Local Open Scope list_scope.

(** ** String and array primitives of the host language *)

Module Js.

(** Code units matched by the character class [[a-z0-9]]. *)
Definition isLowerAlnum (c : ascii) : bool :=
  let n := N_of_ascii c in
  ((97 <=? n) && (n <=? 122) || (48 <=? n) && (n <=? 57))%N.

(** Code units matched by the character class [[-_]]. *)
Definition isSeparator (c : ascii) : bool :=
  let n := N_of_ascii c in
  ((n =? 45) || (n =? 95))%N.

(** [String.prototype.toLowerCase] on one code unit of U+0000..U+00FF:
    A-Z and the Latin-1 capitals (U+00C0..U+00DE without U+00D7) move up by
    32, every other code unit is kept. *)
Definition lowerChar (c : ascii) : ascii :=
  let n := N_of_ascii c in
  if ((65 <=? n) && (n <=? 90)
      || (192 <=? n) && (n <=? 222) && negb (n =? 215))%N
  then ascii_of_N (n + 32)
  else c.

Fixpoint toLowerCase (s : string) : string :=
  match s with
  | EmptyString => EmptyString
  | String c s' => String (lowerChar c) (toLowerCase s')
  end.

(** [s.replace(/[^a-z0-9]/g, '')]. *)
Fixpoint stripNonAlnum (s : string) : string :=
  match s with
  | EmptyString => EmptyString
  | String c s' =>
      if isLowerAlnum c then String c (stripNonAlnum s') else stripNonAlnum s'
  end.

(** [s.replace(/pat/g, rep)] for a literal, non-empty [pat]: the matches are
    found left to right and do not overlap; the scan goes on after the end of
    a match and never looks at the replacement text again.  [skip] counts the
    code units of the current match that are still to be passed over. *)
Fixpoint replaceFrom (pat rep : string) (skip : nat) (s : string) : string :=
  match s with
  | EmptyString => EmptyString
  | String c s' =>
      match skip with
      | S k => replaceFrom pat rep k s'
      | O =>
          if prefix pat s
          then rep ++ replaceFrom pat rep (String.length pat - 1) s'
          else String c (replaceFrom pat rep 0 s')
      end
  end.

Definition replaceAll (pat rep : string) (s : string) : string :=
  replaceFrom pat rep 0 s.

(** [s.includes(pat)]: [pat] occurs in [s] at some position. *)
Fixpoint includes (pat s : string) : bool :=
  match s with
  | EmptyString => prefix pat EmptyString
  | String _ s' => prefix pat s || includes pat s'
  end.

(** [s.split(/[-_]/)]: the pieces between separators, empty pieces kept; the
    empty string splits into one empty piece. *)
Fixpoint split (s : string) : list string :=
  match s with
  | EmptyString => [EmptyString]
  | String c s' =>
      if isSeparator c then EmptyString :: split s'
      else match split s' with
           | t :: ts => String c t :: ts
           | [] => [String c EmptyString]
           end
  end.

(** [arr.includes(x)] on an array of strings. *)
Definition arrayIncludes (arr : list string) (x : string) : bool :=
  existsb (String.eqb x) arr.

(** Template-literal rendering of a non-negative integer. *)
Definition showInt (z : Z) : string :=
  NilZero.string_of_uint (N.to_uint (Z.to_N z)).

End Js.

(** ** Model-name matching *)

(** [normalizeModelName], src lines 355-363. *)
Definition normalizeModelName (modelName : string) : string :=
  Js.replaceAll "instruction" "it"
    (Js.replaceAll "instruct" "it"
       (Js.replaceAll "large" ""
          (Js.replaceAll "small" ""
             (Js.stripNonAlnum (Js.toLowerCase modelName))))).

(** Equality of two array reads [a[0] === b[0]]; [None] is [undefined]. *)
Definition sameElement (a b : option string) : bool :=
  match a, b with
  | Some x, Some y => String.eqb x y
  | None, None => true
  | _, _ => false
  end.

(** [isModelMatch], src lines 368-392. *)
Definition isModelMatch (serverModel requestedModel : string) : bool :=
  if String.eqb serverModel requestedModel then true
  else
    let normalizedServer := normalizeModelName serverModel in
    let normalizedRequested := normalizeModelName requestedModel in
    if String.eqb normalizedServer normalizedRequested then true
    else
      let serverParts := Js.split (normalizeModelName serverModel) in
      let requestedParts := Js.split (normalizeModelName requestedModel) in
      let serverCore := nth_error serverParts 0 in
      let requestedCore := nth_error requestedParts 0 in
      if sameElement serverCore requestedCore then
        let commonParts := filter (Js.arrayIncludes requestedParts) serverParts in
        (2 <=? List.length commonParts)%nat
      else false.

(** ** Data model and environment *)

(** [InferenceServerInfo], src lines 282-287. *)
Record InferenceServerInfo := {
  port : Z;
  modelId : string;
  url : string;
  health : bool
}.

(** Build-time configuration imported from [../env]. *)
Record Config := {
  IS_DOCKER_COMPOSE : bool;
  USE_LOCALHOST_INFERENCE : bool
}.

(** The two fields of a health response that the prober reads, taken as
    strings, the type the interface gives to [modelId].  A field that is
    absent or null is [None].  A field that holds a truthy value of another
    type, which the code would store as it is and on which the matcher's
    normalization would throw, is not covered. *)
Record HealthData := {
  model_id : option string;
  model : option string
}.

(** The clock and the network as one call observes them.  [fetchHealth p]
    is [None] when the request to port [p] fails, times out, answers with a
    non-ok status or has a body that is not JSON or is [null] (reading a
    field of it throws, and the callback catches that).  [settleOrder p] ranks the
    moment the answer of port [p] has been read: answers are handled in the
    order of their rank, not of their port. *)
Record World := {
  now : Z;
  fetchHealth : Z -> option HealthData;
  settleOrder : Z -> nat
}.

(** The module-level state: [_cachedServers] and [_lastDiscovery].
    [healthRequests] is a ghost trace of the ports a health request was sent
    to, oldest first; the code does not read it. *)
Record Cache := {
  _cachedServers : list InferenceServerInfo;
  _lastDiscovery : Z;
  healthRequests : list Z
}.

Definition initialCache : Cache :=
  {| _cachedServers := []; _lastDiscovery := 0; healthRequests := [] |}.

Definition DISCOVERY_CACHE_TTL : Z := 30000.

Definition LOCALHOST_INFERENCE_HOST (cfg : Config) : string :=
  if IS_DOCKER_COMPOSE cfg then "http://inference:5002" else "http://127.0.0.1:5002".

(** ** Discovery *)

(** [for (let port = lo; port <= hi; port++) acc.push(port)]; [fuel] bounds
    the number of times the loop condition is tested. *)
Fixpoint pushPorts (fuel : nat) (port hi : Z) (acc : list Z) : list Z :=
  match fuel with
  | O => acc
  | S fuel' =>
      if (port <=? hi)%Z then pushPorts fuel' (port + 1)%Z hi (acc ++ [port])
      else acc
  end.

(** src lines 307-310.  The condition is tested once per port from 5005 to
    5020 and once more, at 5021, where it fails. *)
Definition portsToCheck : list Z :=
  pushPorts (Z.to_nat (5020 + 2 - 5005)) 5005%Z 5020%Z [5002%Z].

(** JavaScript truthiness of a string-valued field. *)
Definition truthy (v : option string) : bool :=
  match v with
  | Some s => negb (String.eqb s "")
  | None => false
  end.

(** [healthData.model_id || healthData.model || 'unknown'], src line 330. *)
Definition reportedModelId (healthData : HealthData) : string :=
  if truthy (model_id healthData) then
    match model_id healthData with Some s => s | None => "unknown" end
  else if truthy (model healthData) then
    match model healthData with Some s => s | None => "unknown" end
  else "unknown".

(** The body of the per-port callback, src lines 314-341: the descriptor it
    pushes, if any. *)
Definition probePort (cfg : Config) (w : World) (p : Z) : option InferenceServerInfo :=
  let baseUrl := if IS_DOCKER_COMPOSE cfg then "http://inference" else "http://127.0.0.1" in
  let url := (baseUrl ++ ":" ++ Js.showInt p)%string in
  match fetchHealth w p with
  | Some healthData =>
      Some {| port := p; modelId := reportedModelId healthData;
              url := url; health := true |}
  | None => None
  end.

(** Descriptors are pushed as the answers settle: the array is ordered by
    [settleOrder], and answers of equal rank keep the order of their
    requests.  [insertSettled w d l] puts the descriptor of an earlier
    request into the descriptors [l] of the later ones. *)
Fixpoint insertSettled (w : World) (d : InferenceServerInfo)
    (l : list InferenceServerInfo) : list InferenceServerInfo :=
  match l with
  | [] => [d]
  | x :: l' =>
      if (settleOrder w (port x) <? settleOrder w (port d))%nat
      then x :: insertSettled w d l'
      else d :: x :: l'
  end.

(** One round of probes over [ports], src lines 312-343: the array
    [servers] once every request has settled, and the ports a request was
    sent to, in the order of sending. *)
Fixpoint probeAll (cfg : Config) (w : World) (ports : list Z)
  : list InferenceServerInfo * list Z :=
  match ports with
  | [] => ([], [])
  | p :: ports' =>
      let (rest, sent) := probeAll cfg w ports' in
      (match probePort cfg w p with
       | Some d => insertSettled w d rest
       | None => rest
       end,
       p :: sent)
  end.

(** [discoverInferenceServers], src lines 297-350. *)
Definition discoverInferenceServers (cfg : Config) (w : World) (st : Cache)
  : list InferenceServerInfo * Cache :=
  if ((now w - _lastDiscovery st <? DISCOVERY_CACHE_TTL)%Z
      && (0 <? List.length (_cachedServers st))%nat)
  then (_cachedServers st, st)
  else
    let (servers, sent) := probeAll cfg w portsToCheck in
    (servers,
     {| _cachedServers := servers;
        _lastDiscovery := now w;
        healthRequests := healthRequests st ++ sent |}).

(** [clearInferenceServerCache], src lines 436-439. *)
Definition clearInferenceServerCache (st : Cache) : Cache :=
  {| _cachedServers := []; _lastDiscovery := 0;
     healthRequests := healthRequests st |}.

(** [getAllDiscoveredInferenceServers], src lines 444-446. *)
Definition getAllDiscoveredInferenceServers (cfg : Config) (w : World) (st : Cache)
  : list InferenceServerInfo * Cache :=
  discoverInferenceServers cfg w st.

(** ** Matcher *)

(** [getInferenceServerForModel], src lines 397-419; [None] is [null]. *)
Definition getInferenceServerForModel (cfg : Config) (w : World) (st : Cache)
    (requested : string) : option string * Cache :=
  let (servers, st') := discoverInferenceServers cfg w st in
  match find (fun server => health server && isModelMatch (modelId server) requested) servers with
  | Some exactMatch => (Some (url exactMatch), st')
  | None =>
      match find (fun server => health server) servers with
      | Some fallback => (Some (url fallback), st')
      | None => (None, st')
      end
  end.

(** [getDynamicLocalhostInferenceHost], src lines 424-431.  The optional
    argument is [None] when it is left out. *)
Definition getDynamicLocalhostInferenceHost (cfg : Config) (w : World) (st : Cache)
    (requested : option string) : string * Cache :=
  if negb (truthy requested) then (LOCALHOST_INFERENCE_HOST cfg, st)
  else
    match requested with
    | None => (LOCALHOST_INFERENCE_HOST cfg, st)
    | Some m =>
        let (dynamicHost, st') := getInferenceServerForModel cfg w st m in
        ((if truthy dynamicHost
          then match dynamicHost with Some h => h | None => LOCALHOST_INFERENCE_HOST cfg end
          else LOCALHOST_INFERENCE_HOST cfg), st')
    end.

(** ** The earlier version of the matcher

    The file exists in two versions; the earlier one (src/unnamed/part_001
    lines 1-271) has the same discovery and the same selectors and differs
    in the matcher, which tests containment of one identifier in the other
    instead of calling [isModelMatch]. *)

Module Legacy.

(** [getInferenceServerForModel], src lines 77-96. *)
Definition getInferenceServerForModel (cfg : Config) (w : World) (st : Cache)
    (requested : string) : option string * Cache :=
  let (servers, st') := discoverInferenceServers cfg w st in
  match find (fun server =>
                health server
                && (String.eqb (modelId server) requested
                    || Js.includes requested (modelId server)
                    || Js.includes (modelId server) requested))
             servers with
  | Some exactMatch => (Some (url exactMatch), st')
  | None =>
      match find (fun server => health server) servers with
      | Some fallback => (Some (url fallback), st')
      | None => (None, st')
      end
  end.

End Legacy.

(** ** Host catalog and host selectors *)

(** The rows the selectors read through [prisma.source.findMany] with
    [include: { inferenceHosts: { include: { inferenceHost: true } } }];
    only the columns the code reads are kept. *)
Module Prisma.

Record InferenceHostSource := { hostUrl : string }.

Record InferenceHostSourceOnSource := { inferenceHost : InferenceHostSource }.

Record Source := {
  modelId : string;
  setName : string;
  inferenceHosts : list InferenceHostSourceOnSource
}.

End Prisma.

(** What the selectors get from outside this file: the [source] table and
    the helpers imported from [./userCanAccess] and [./source].
    [getSourceInferenceHosts] answers [None] for the falsy value it gives when
    there is no such source. *)
Record Collaborators (User : Type) := {
  sourceTable : list Prisma.Source;
  userCanAccessModelAndSourceSet : string -> string -> option User -> bool -> bool;
  getSourceInferenceHosts :
    string -> string -> option User -> option (list Prisma.InferenceHostSourceOnSource)
}.

Arguments sourceTable {User} _.
Arguments userCanAccessModelAndSourceSet {User} _ _ _ _ _.
Arguments getSourceInferenceHosts {User} _ _ _ _.

(** A value of [Math.random()]: the number [numer / (numer + slack + 1)],
    which is at least 0 and less than 1. *)
Record Draw := { numer : nat; slack : nat }.

(** [Math.floor(Math.random() * n)], the product taken exactly.  Rounding
    the product to a double can move the floor across an integer boundary,
    but not out of the range 0..n-1 (0 when [n] is 0), and every index of
    that range is the floor for some draw: the indices a call can see are
    the same. *)
Definition floorRandomTimes (d : Draw) (n : nat) : nat :=
  (numer d * n) / (numer d + slack d + 1).

(** What a selector hands back: a string, [null] or [undefined]. *)
Inductive Host :=
| hostString (s : string)
| null
| undefined.

Inductive Thrown :=
| Error (message : string)
| TypeError.

Inductive Completion (A : Type) :=
| Returned (a : A)
| Threw (e : Thrown).

Arguments Returned {A} a.
Arguments Threw {A} e.

(** [hosts[i]] on an array of strings. *)
Definition elementAt (hosts : list string) (i : nat) : Host :=
  match nth_error hosts i with
  | Some h => hostString h
  | None => undefined
  end.

(** [[...new Set(hosts)]]: the first occurrence of every element, in order. *)
Fixpoint uniqueFrom (seen : list string) (hosts : list string) : list string :=
  match hosts with
  | [] => []
  | h :: hosts' =>
      if Js.arrayIncludes seen h then uniqueFrom seen hosts'
      else h :: uniqueFrom (h :: seen) hosts'
  end.

Definition unique (hosts : list string) : list string := uniqueFrom [] hosts.

(** The [flatMap] both catalog queries end with, src lines 474 and 488. *)
Definition flattenHostUrls (sources : list Prisma.Source) : list string :=
  flat_map
    (fun source =>
       map (fun host => Prisma.hostUrl (Prisma.inferenceHost host))
           (Prisma.inferenceHosts source))
    sources.

(** [getAllServerHostsForSourceSet], src lines 462-476. *)
Definition getAllServerHostsForSourceSet {User} (ext : Collaborators User)
    (modelId sourceSetName : string) : list string :=
  flattenHostUrls
    (filter
       (fun source =>
          String.eqb (Prisma.modelId source) modelId
          && String.eqb (Prisma.setName source) sourceSetName)
       (sourceTable ext)).

(** [getAllServerHostsForModel], src lines 477-490. *)
Definition getAllServerHostsForModel {User} (ext : Collaborators User)
    (modelId : string) : list string :=
  flattenHostUrls
    (filter (fun source => String.eqb (Prisma.modelId source) modelId)
            (sourceTable ext)).

(** [getOneRandomServerHostForSourceSet], src lines 491-514. *)
Definition getOneRandomServerHostForSourceSet {User} (cfg : Config)
    (ext : Collaborators User) (rng : nat -> Draw) (w : World) (st : Cache)
    (modelId sourceSetName : string) (user : option User)
  : Completion Host * Cache :=
  let canAccess := userCanAccessModelAndSourceSet ext modelId sourceSetName user true in
  if negb canAccess then (Returned null, st)
  else if USE_LOCALHOST_INFERENCE cfg then
    let (h, st') := getDynamicLocalhostInferenceHost cfg w st (Some modelId) in
    (Returned (hostString h), st')
  else
    let hosts := getAllServerHostsForSourceSet ext modelId sourceSetName in
    if (List.length hosts =? 0)%nat then (Returned null, st)
    else
      let randomIndex := floorRandomTimes (rng 0%nat) (List.length hosts) in
      (Returned (elementAt hosts randomIndex), st).

(** [getOneRandomServerHostForSource], src lines 515-531.  Reading
    [.inferenceHost] of [undefined] throws a [TypeError]. *)
Definition getOneRandomServerHostForSource {User} (cfg : Config)
    (ext : Collaborators User) (rng : nat -> Draw) (w : World) (st : Cache)
    (modelId sourceId : string) (user : option User)
  : Completion Host * Cache :=
  if USE_LOCALHOST_INFERENCE cfg then
    let (h, st') := getDynamicLocalhostInferenceHost cfg w st (Some modelId) in
    (Returned (hostString h), st')
  else
    match getSourceInferenceHosts ext modelId sourceId user with
    | None => (Threw (Error "Source not found."), st)
    | Some hosts =>
        let randomIndex := floorRandomTimes (rng 0%nat) (List.length hosts) in
        match nth_error hosts randomIndex with
        | Some h => (Returned (hostString (Prisma.hostUrl (Prisma.inferenceHost h))), st)
        | None => (Threw TypeError, st)
        end
    end.

(** [getOneRandomServerHostForModel], src lines 532-546. *)
Definition getOneRandomServerHostForModel {User} (cfg : Config)
    (ext : Collaborators User) (w : World) (st : Cache) (modelId : string)
  : Completion Host * Cache :=
  if USE_LOCALHOST_INFERENCE cfg then
    let (h, st') := getDynamicLocalhostInferenceHost cfg w st (Some modelId) in
    (Returned (hostString h), st')
  else
    let hosts := getAllServerHostsForModel ext modelId in
    if (List.length hosts =? 0)%nat then (Threw (Error "No hosts found."), st)
    else
      let hosts := unique hosts in
      (Returned (elementAt hosts 0), st).

(** [while (randomIndex2 === randomIndex) randomIndex2 = Math.floor(Math.random() * n)],
    src lines 567-569 and 604-606.  [next] is the number of the draw the next
    turn of the loop takes; [None] means that [fuel] tests of the loop
    condition all found the two indices equal. *)
Fixpoint resample (fuel : nat) (rng : nat -> Draw) (next n : nat)
    (randomIndex randomIndex2 : nat) : option nat :=
  match fuel with
  | O => None
  | S fuel' =>
      if (randomIndex2 =? randomIndex)%nat
      then resample fuel' rng (S next) n randomIndex (floorRandomTimes (rng next) n)
      else Some randomIndex2
  end.

(** The end of both dual-host selectors once the raw host list is there,
    src lines 554-571 and 591-608 (the same text twice). *)
Definition pickTwoHosts (fuel : nat) (rng : nat -> Draw) (hosts : list string)
  : option (Completion (Host * Host)) :=
  if (List.length hosts =? 0)%nat then Some (Threw (Error "No hosts found."))
  else
    let hosts := unique hosts in
    if (List.length hosts <? 2)%nat
    then Some (Returned (elementAt hosts 0, elementAt hosts 0))
    else
      let randomIndex := floorRandomTimes (rng 0%nat) (List.length hosts) in
      let randomIndex2 := floorRandomTimes (rng 1%nat) (List.length hosts) in
      match resample fuel rng 2 (List.length hosts) randomIndex randomIndex2 with
      | Some randomIndex2 =>
          Some (Returned (elementAt hosts randomIndex, elementAt hosts randomIndex2))
      | None => None
      end.

(** [getTwoRandomServerHostsForModel], src lines 547-572.  The result is
    [None] when the loop has not ended within [fuel] tests. *)
Definition getTwoRandomServerHostsForModel {User} (fuel : nat) (cfg : Config)
    (ext : Collaborators User) (rng : nat -> Draw) (w : World) (st : Cache)
    (modelId : string) : option (Completion (Host * Host)) * Cache :=
  if USE_LOCALHOST_INFERENCE cfg then
    let (dynamicHost, st') := getDynamicLocalhostInferenceHost cfg w st (Some modelId) in
    (Some (Returned (hostString dynamicHost, hostString dynamicHost)), st')
  else
    (pickTwoHosts fuel rng (getAllServerHostsForModel ext modelId), st).

(** [getTwoRandomServerHostsForSourceSet], src lines 573-609. *)
Definition getTwoRandomServerHostsForSourceSet {User} (fuel : nat) (cfg : Config)
    (ext : Collaborators User) (rng : nat -> Draw) (w : World) (st : Cache)
    (modelId sourceSetName : string) (user : option User)
  : option (Completion (Host * Host)) * Cache :=
  if USE_LOCALHOST_INFERENCE cfg then
    let (dynamicHost, st') := getDynamicLocalhostInferenceHost cfg w st (Some modelId) in
    (Some (Returned (hostString dynamicHost, hostString dynamicHost)), st')
  else
    let canAccess := userCanAccessModelAndSourceSet ext modelId sourceSetName user true in
    if negb canAccess then (Some (Threw (Error "Source set not found.")), st)
    else
      (pickTwoHosts fuel rng (getAllServerHostsForSourceSet ext modelId sourceSetName), st).

(** ** Admin route (app/api/admin/inference-servers/route.ts)

    The two handlers as they are passed to [withAuthedAdminUser]; the check
    that the caller is an administrator happens before them and is not part
    of this file. *)

Module Route.

(** A parsed JSON text. *)
#[warnings="-register-all"]
Inductive Json :=
| JNull
| JBool (b : bool)
| JNumber (q : QArith_base.Q)
| JString (s : string)
| JArray (items : list Json)
| JObject (fields : list (string * Json)).

(** The payloads the two handlers build. *)
Inductive Payload :=
| Listing (success : bool) (servers : list InferenceServerInfo) (total : nat) (timestamp : Z)
| Refreshed (success : bool) (message : string) (servers : list InferenceServerInfo) (total : nat)
| Failure (error : string).

Record Response := { status : Z; payload : Payload }.

(** Own property [key] of a parsed object; of two members with one name the
    later one stays. *)
Definition lookupField (key : string) (fields : list (string * Json)) : option Json :=
  fold_left
    (fun found kv => if String.eqb (fst kv) key then Some (snd kv) else found)
    fields None.

(** [const { action } = body]: [None] when the destructuring throws (the body
    is [null]); otherwise the value read, [None] inside for [undefined]. *)
Definition destructureAction (body : Json) : option (option Json) :=
  match body with
  | JNull => None
  | JObject fields => Some (lookupField "action" fields)
  | _ => Some None
  end.

(** [action === 'refresh']. *)
Definition isRefresh (action : option Json) : bool :=
  match action with
  | Some (JString s) => String.eqb s "refresh"
  | _ => false
  end.

(** The [GET] handler, src lines 5-21; the timestamp is kept as epoch
    milliseconds. *)
Definition GET (cfg : Config) (w : World) (st : Cache) : Response * Cache :=
  let (servers, st') := getAllDiscoveredInferenceServers cfg w st in
  ({| status := 200;
      payload := Listing true servers (List.length servers) (now w) |}, st').

(** The [POST] handler, src lines 23-50.  [requestJson] is what
    [request.json()] resolves to, [None] when it rejects. *)
Definition POST (cfg : Config) (w : World) (st : Cache) (requestJson : option Json)
  : Response * Cache :=
  let failed :=
    {| status := 500; payload := Failure "Failed to refresh inference servers" |} in
  match requestJson with
  | None => (failed, st)
  | Some body =>
      match destructureAction body with
      | None => (failed, st)
      | Some action =>
          if isRefresh action then
            let st1 := clearInferenceServerCache st in
            let (servers, st2) := getAllDiscoveredInferenceServers cfg w st1 in
            ({| status := 200;
                payload := Refreshed true "Inference server cache refreshed"
                                     servers (List.length servers) |}, st2)
          else
            ({| status := 400;
                payload := Failure "Invalid action. Supported actions: refresh" |}, st)
      end
  end.

End Route.

(** ** Notions the properties are stated with *)

(** Every code unit of [s] satisfies [P]. *)
Fixpoint allChars (P : ascii -> bool) (s : string) : bool :=
  match s with
  | EmptyString => true
  | String c s' => P c && allChars P s'
  end.

(** The index the [k]-th test of the loop condition of [resample] looks at,
    when the loop is entered with [randomIndex2] and takes its next draw from
    position [next] of the random source. *)
Definition candidate (rng : nat -> Draw) (n next randomIndex2 k : nat) : nat :=
  match k with
  | O => randomIndex2
  | S j => floorRandomTimes (rng (next + j)) n
  end.

(** The URL the prober builds for port [p], src lines 304 and 315. *)
Definition portUrl (cfg : Config) (p : Z) : string :=
  ((if IS_DOCKER_COMPOSE cfg then "http://inference" else "http://127.0.0.1")
   ++ ":" ++ Js.showInt p)%string.

(** What a descriptor pushed by a round of probes looks like. *)
Definition probedDescriptor (cfg : Config) (d : InferenceServerInfo) : Prop :=
  health d = true
  /\ In (port d) portsToCheck
  /\ modelId d <> ""
  /\ url d = portUrl cfg (port d).

(** A cache as rounds of probes leave it: probed descriptors, at most one
    for a port. *)
Definition wellFormedCache (cfg : Config) (st : Cache) : Prop :=
  (forall d, In d (_cachedServers st) -> probedDescriptor cfg d)
  /\ NoDup (map port (_cachedServers st)).

(** ** Sample configurations and worlds *)

(** A world in which no port answers at time [t]. *)
Definition allDown (t : Z) : World :=
  {| now := t; fetchHealth := fun _ => None; settleOrder := fun _ => 0%nat |}.

Definition localConfig : Config :=
  {| IS_DOCKER_COMPOSE := false; USE_LOCALHOST_INFERENCE := true |}.

(** A world at time [t] in which exactly the ports listed in [answers]
    answer, each reporting the model paired with it under [model_id], and
    the answers settle in the order of the ports. *)
Definition reporting (t : Z) (answers : list (Z * string)) : World :=
  {| now := t;
     fetchHealth := fun p =>
       match find (fun a => Z.eqb (fst a) p) answers with
       | Some a => Some {| model_id := Some (snd a); model := None |}
       | None => None
       end;
     settleOrder := fun p => Z.to_nat p |}.

(** The request flow of docs/MULTIPLE_INFERENCE_SERVERS.md: gpt2-small on
    port 5002 and gemma-2-2b-it on port 5005. *)
Definition documentedFlow : World :=
  reporting 1700000000000 [(5002%Z, "gpt2-small"); (5005%Z, "gemma-2-2b-it")].

Definition gpt2Pair : World :=
  reporting 1700000000000 [(5002%Z, "gpt2"); (5005%Z, "gpt2-small")].

Definition serverOn (p : Z) (m : string) : InferenceServerInfo :=
  {| port := p; modelId := m;
     url := ("http://127.0.0.1:" ++ Js.showInt p)%string; health := true |}.

(** A catalog with one source set of gemma-2-2b served by the listed hosts,
    and helpers that answer [grant] to every access question. *)
Definition sampleCatalog (grant : bool) (urls : list string) : Collaborators unit :=
  {| sourceTable :=
       [{| Prisma.modelId := "gemma-2-2b";
           Prisma.setName := "gemmascope-res-16k";
           Prisma.inferenceHosts :=
             map (fun u => {| Prisma.inferenceHost := {| Prisma.hostUrl := u |} |}) urls |}];
     userCanAccessModelAndSourceSet := fun _ _ _ _ => grant;
     getSourceInferenceHosts := fun _ sourceId _ =>
       if String.eqb sourceId "missing" then None
       else Some (map (fun u => {| Prisma.inferenceHost := {| Prisma.hostUrl := u |} |}) urls) |}.

(** A random source whose draws are 0, 0, 1/2, 1/2, ... *)
Definition sampleDraws (k : nat) : Draw :=
  if (k <? 2)%nat then {| numer := 0; slack := 0 |} else {| numer := 1; slack := 0 |}.

Definition staticConfig : Config :=
  {| IS_DOCKER_COMPOSE := false; USE_LOCALHOST_INFERENCE := false |}.

(** * Properties *)

Example normalize_gemma_it : normalizeModelName "gemma-2-2b-it" = "gemma22bit".
Proof. reflexivity. Qed.

Example normalize_deepseek :
  normalizeModelName "DeepSeek-R1-Distill-Instruct" = "deepseekr1distillit".
Proof. reflexivity. Qed.

Example normalize_instruction : normalizeModelName "Instruction_Large" = "ition".
Proof. reflexivity. Qed.

Example split_keeps_empty_pieces : Js.split "a-_b" = ["a"; ""; "b"].
Proof. reflexivity. Qed.

Example unique_keeps_first : unique ["b"; "a"; "b"; "c"; "a"] = ["b"; "a"; "c"].
Proof. reflexivity. Qed.

Example draw_half_of_two : floorRandomTimes {| numer := 1; slack := 0 |} 2 = 1.
Proof. reflexivity. Qed.

(** ** Discovery: the scanned ports and the cache *)

Lemma portsToCheck_value :
  portsToCheck =
  [5002; 5005; 5006; 5007; 5008; 5009; 5010; 5011; 5012; 5013; 5014; 5015;
   5016; 5017; 5018; 5019; 5020]%Z.
Proof. reflexivity. Qed.

Lemma probeAll_sent cfg w ports : snd (probeAll cfg w ports) = ports.
Proof.
  induction ports as [|p ports IH]; simpl; [reflexivity|].
  destruct (probeAll cfg w ports) as [rest sent]; simpl in *.
  now rewrite IH.
Qed.

Lemma discover_probes cfg w st :
  ((now w - _lastDiscovery st <? DISCOVERY_CACHE_TTL)%Z
   && (0 <? List.length (_cachedServers st))%nat) = false ->
  discoverInferenceServers cfg w st =
  (fst (probeAll cfg w portsToCheck),
   {| _cachedServers := fst (probeAll cfg w portsToCheck);
      _lastDiscovery := now w;
      healthRequests := healthRequests st ++ portsToCheck |}).
Proof.
  intros Hc. unfold discoverInferenceServers. rewrite Hc.
  pose proof (probeAll_sent cfg w portsToCheck) as Hs.
  destruct (probeAll cfg w portsToCheck) as [servers sent]; simpl in *.
  now subst sent.
Qed.

Lemma discover_cached cfg w st :
  ((now w - _lastDiscovery st <? DISCOVERY_CACHE_TTL)%Z
   && (0 <? List.length (_cachedServers st))%nat) = true ->
  discoverInferenceServers cfg w st = (_cachedServers st, st).
Proof. intros Hc. unfold discoverInferenceServers. now rewrite Hc. Qed.

Lemma nonempty_length {A} (l : list A) : l <> [] -> (0 <? List.length l)%nat = true.
Proof. destruct l; [congruence|reflexivity]. Qed.

(** C10. A round of probes sends health requests to port 5002 and to the
    ports 5005 to 5020 and to no other port: ports 5003 and 5004 are never
    asked.  Every call of [discoverInferenceServers] either sends nothing or
    sends exactly this round. *)
Theorem probe_scan_ports :
  (forall p, In p portsToCheck <-> (p = 5002 \/ 5005 <= p <= 5020)%Z)
  /\ ~ In 5003%Z portsToCheck
  /\ ~ In 5004%Z portsToCheck
  /\ (forall cfg w ports, snd (probeAll cfg w ports) = ports)
  /\ (forall cfg w st,
        let st' := snd (discoverInferenceServers cfg w st) in
        healthRequests st' = healthRequests st
        \/ healthRequests st' = healthRequests st ++ portsToCheck).
Proof.
  split; [|split; [|split; [|split]]].
  - intros p. rewrite portsToCheck_value. simpl. split.
    + intros H. repeat (destruct H as [H|H]; [lia|]). contradiction.
    + intros [H|H]; [subst; auto|].
      assert (Hc : (p = 5005 \/ p = 5006 \/ p = 5007 \/ p = 5008 \/ p = 5009
                    \/ p = 5010 \/ p = 5011 \/ p = 5012 \/ p = 5013 \/ p = 5014
                    \/ p = 5015 \/ p = 5016 \/ p = 5017 \/ p = 5018 \/ p = 5019
                    \/ p = 5020)%Z) by lia.
      repeat (destruct Hc as [Hc|Hc]; [subst p; simpl; tauto|]).
      subst p; simpl; tauto.
  - rewrite portsToCheck_value. simpl. intros H.
    repeat (destruct H as [H|H]; [discriminate|]). exact H.
  - rewrite portsToCheck_value. simpl. intros H.
    repeat (destruct H as [H|H]; [discriminate|]). exact H.
  - apply probeAll_sent.
  - intros cfg w st.
    destruct ((now w - _lastDiscovery st <? DISCOVERY_CACHE_TTL)%Z
              && (0 <? List.length (_cachedServers st))%nat) eqn:Hc.
    + left. now rewrite (discover_cached _ _ _ Hc).
    + right. now rewrite (discover_probes _ _ _ Hc).
Qed.

(** C1, as stated, fails: a round in which no port answers caches an empty
    snapshot, and a call one second later sends a whole new round of health
    requests. *)
Lemma empty_snapshot_probed_again :
  let st1 := snd (discoverInferenceServers localConfig (allDown 1700000000000) initialCache) in
  let st2 := snd (discoverInferenceServers localConfig (allDown 1700000001000) st1) in
  _cachedServers st1 = []
  /\ (0 <= now (allDown 1700000001000) - _lastDiscovery st1 < DISCOVERY_CACHE_TTL)%Z
  /\ healthRequests st1 = portsToCheck
  /\ healthRequests st2 = portsToCheck ++ portsToCheck
  /\ healthRequests st2 <> healthRequests st1.
Proof.
  vm_compute. repeat split; try discriminate.
Qed.

(** C1, amended. Within the 30 seconds after the last round, a call returns
    the cached snapshot and sends no health request when that snapshot is not
    empty; when it is empty the call sends a new round and caches its
    result. *)
Theorem cache_hit_needs_nonempty_snapshot cfg w st :
  (now w - _lastDiscovery st < DISCOVERY_CACHE_TTL)%Z ->
  (_cachedServers st <> [] ->
   discoverInferenceServers cfg w st = (_cachedServers st, st))
  /\ (_cachedServers st = [] ->
      let r := discoverInferenceServers cfg w st in
      fst r = fst (probeAll cfg w portsToCheck)
      /\ _cachedServers (snd r) = fst r
      /\ _lastDiscovery (snd r) = now w
      /\ healthRequests (snd r) = healthRequests st ++ portsToCheck).
Proof.
  intros Httl. split.
  - intros Hne. apply discover_cached.
    apply andb_true_intro. split.
    + now apply Z.ltb_lt.
    + now apply nonempty_length.
  - intros He. cbv zeta. rewrite discover_probes.
    + simpl. repeat split.
    + rewrite He. simpl. apply andb_false_r.
Qed.

Lemma cache_hit_needs_nonempty_snapshot_witness :
  let d := {| port := 5002; modelId := "gpt2-small";
              url := "http://127.0.0.1:5002"; health := true |} in
  let st := {| _cachedServers := [d]; _lastDiscovery := 1700000000000;
               healthRequests := portsToCheck |} in
  discoverInferenceServers localConfig (allDown 1700000029999) st = ([d], st).
Proof.
  intros d st.
  apply (cache_hit_needs_nonempty_snapshot localConfig (allDown 1700000029999) st).
  - simpl. unfold DISCOVERY_CACHE_TTL. lia.
  - discriminate.
Defined.

(** ** Admin route *)

Lemma isRefresh_true action :
  Route.isRefresh action = true <-> action = Some (Route.JString "refresh").
Proof.
  destruct action as [[| | |s| |]|]; simpl; split; try discriminate.
  - intros H. apply String.eqb_eq in H. now subst.
  - intros H. injection H as ->. reflexivity.
Qed.

(** C9. A POST whose body has [action] equal to ["refresh"] clears the cache
    and then runs a discovery cycle, which always probes: the answer has
    status 200 and carries the freshly probed list, and that list is the new
    cached snapshot.  A POST whose body has any other [action] (or none) is
    answered with status 400, and the cache and the trace of health requests
    are left as they were. *)
Theorem post_refresh_or_reject cfg w st body action :
  Route.destructureAction body = Some action ->
  (action = Some (Route.JString "refresh") ->
   let fresh := fst (probeAll cfg w portsToCheck) in
   Route.POST cfg w st (Some body) =
     ({| Route.status := 200;
         Route.payload :=
           Route.Refreshed true "Inference server cache refreshed" fresh (List.length fresh) |},
      {| _cachedServers := fresh;
         _lastDiscovery := now w;
         healthRequests := healthRequests st ++ portsToCheck |})
   /\ snd (Route.POST cfg w st (Some body)) =
      snd (discoverInferenceServers cfg w (clearInferenceServerCache st)))
  /\ (action <> Some (Route.JString "refresh") ->
      Route.POST cfg w st (Some body) =
        ({| Route.status := 400;
            Route.payload := Route.Failure "Invalid action. Supported actions: refresh" |},
         st)).
Proof.
  intros Hd. split.
  - intros Ha. cbv zeta. unfold Route.POST. rewrite Hd.
    apply isRefresh_true in Ha. rewrite Ha.
    unfold getAllDiscoveredInferenceServers.
    rewrite discover_probes by (simpl; apply andb_false_r).
    simpl. split; reflexivity.
  - intros Ha. unfold Route.POST. rewrite Hd.
    destruct (Route.isRefresh action) eqn:E; [|reflexivity].
    apply isRefresh_true in E. contradiction.
Qed.

Lemma post_refresh_or_reject_witness :
  let st := {| _cachedServers :=
                 [{| port := 5002; modelId := "gpt2-small";
                     url := "http://127.0.0.1:5002"; health := true |}];
               _lastDiscovery := 1700000000000;
               healthRequests := portsToCheck |} in
  let w := allDown 1700000001000 in
  (Route.status (fst (Route.POST localConfig w st
      (Some (Route.JObject [("action", Route.JString "refresh")])))) = 200%Z
   /\ _cachedServers (snd (Route.POST localConfig w st
      (Some (Route.JObject [("action", Route.JString "refresh")])))) = [])
  /\ Route.POST localConfig w st
       (Some (Route.JObject [("action", Route.JString "bogus")])) =
     ({| Route.status := 400;
         Route.payload := Route.Failure "Invalid action. Supported actions: refresh" |},
      st).
Proof.
  intros st w. split.
  - destruct (post_refresh_or_reject localConfig w st
                (Route.JObject [("action", Route.JString "refresh")])
                (Some (Route.JString "refresh")) eq_refl) as [H _].
    destruct (H eq_refl) as [E _]. rewrite E. split; reflexivity.
  - destruct (post_refresh_or_reject localConfig w st
                (Route.JObject [("action", Route.JString "bogus")])
                (Some (Route.JString "bogus")) eq_refl) as [_ H].
    apply H. discriminate.
Defined.

(** ** Matcher: absence *)

Lemma find_none_iff {A} (f : A -> bool) (l : list A) :
  find f l = None <-> forall x, In x l -> f x = false.
Proof.
  split.
  - apply find_none.
  - induction l as [|a l IH]; simpl; [reflexivity|].
    intros H. rewrite (H a (or_introl eq_refl)). apply IH. intros x Hx. apply H. now right.
Qed.

Lemma matcher_unfold cfg w st requested :
  getInferenceServerForModel cfg w st requested =
  let servers := fst (discoverInferenceServers cfg w st) in
  let st' := snd (discoverInferenceServers cfg w st) in
  match find (fun server => health server && isModelMatch (modelId server) requested) servers with
  | Some exactMatch => (Some (url exactMatch), st')
  | None =>
      match find (fun server => health server) servers with
      | Some fallback => (Some (url fallback), st')
      | None => (None, st')
      end
  end.
Proof.
  unfold getInferenceServerForModel.
  destruct (discoverInferenceServers cfg w st) as [servers st']. reflexivity.
Qed.

(** C7. The matcher answers [null] exactly when the snapshot it works on has
    no healthy descriptor; and whenever it answers [null], the dynamic
    single-host path answers [LOCALHOST_INFERENCE_HOST]. *)
Theorem matcher_absent_iff_no_healthy cfg w st requested :
  let servers := fst (discoverInferenceServers cfg w st) in
  (fst (getInferenceServerForModel cfg w st requested) = None
   <-> forall d, In d servers -> health d = false)
  /\ (fst (getInferenceServerForModel cfg w st requested) = None ->
      fst (getDynamicLocalhostInferenceHost cfg w st (Some requested))
      = LOCALHOST_INFERENCE_HOST cfg).
Proof.
  cbv zeta. split.
  - rewrite matcher_unfold. cbv zeta.
    set (servers := fst (discoverInferenceServers cfg w st)).
    destruct (find (fun server => health server && isModelMatch (modelId server) requested) servers)
      as [m|] eqn:Em.
    + simpl. split; [discriminate|]. intros Hall.
      apply find_some in Em. destruct Em as [Hin Hm].
      rewrite (Hall m Hin) in Hm. discriminate.
    + destruct (find (fun server => health server) servers) as [f|] eqn:Ef; simpl.
      * split; [discriminate|]. intros Hall.
        apply find_some in Ef. destruct Ef as [Hin Hf].
        rewrite (Hall f Hin) in Hf. discriminate.
      * split; [|reflexivity]. intros _.
        now apply (find_none_iff (fun server => health server)).
  - intros Hn. unfold getDynamicLocalhostInferenceHost.
    destruct (negb (truthy (Some requested))); [reflexivity|].
    destruct (getInferenceServerForModel cfg w st requested) as [r st'].
    simpl in Hn. subst r. reflexivity.
Qed.

Lemma matcher_absent_iff_no_healthy_witness :
  fst (getDynamicLocalhostInferenceHost localConfig (allDown 1700000000000)
         initialCache (Some "gemma-2-2b"))
  = "http://127.0.0.1:5002".
Proof.
  apply (matcher_absent_iff_no_healthy localConfig (allDown 1700000000000)
           initialCache "gemma-2-2b").
  reflexivity.
Defined.

(** ** Strings: what normalization leaves *)

Ltac each_char c :=
  destruct c as [[] [] [] [] [] [] [] []]; try reflexivity; try discriminate.

Lemma lowerChar_alnum c : Js.isLowerAlnum c = true -> Js.lowerChar c = c.
Proof. each_char c. Qed.

Lemma alnum_not_separator c : Js.isLowerAlnum c = true -> Js.isSeparator c = false.
Proof. each_char c. Qed.

Lemma allChars_append P s t :
  allChars P s = true -> allChars P t = true -> allChars P (s ++ t) = true.
Proof.
  induction s as [|c s IH]; simpl; intros Hs Ht; [exact Ht|].
  apply andb_prop in Hs. destruct Hs as [Hc Hs].
  now rewrite Hc, IH.
Qed.

Lemma stripNonAlnum_all s : allChars Js.isLowerAlnum (Js.stripNonAlnum s) = true.
Proof.
  induction s as [|c s IH]; simpl; [reflexivity|].
  destruct (Js.isLowerAlnum c) eqn:E; simpl; [now rewrite E|exact IH].
Qed.

Lemma replaceFrom_all P pat rep s :
  allChars P rep = true -> allChars P s = true ->
  forall k, allChars P (Js.replaceFrom pat rep k s) = true.
Proof.
  intros Hrep. induction s as [|c s IH]; simpl; intros Hs k; [reflexivity|].
  apply andb_prop in Hs. destruct Hs as [Hc Hs].
  destruct k as [|k]; [|now apply IH].
  match goal with |- context [if ?b then _ else _] => destruct b end.
  - apply allChars_append; [exact Hrep|now apply IH].
  - simpl. now rewrite Hc, IH.
Qed.

Lemma normalize_all x : allChars Js.isLowerAlnum (normalizeModelName x) = true.
Proof.
  unfold normalizeModelName, Js.replaceAll.
  repeat (apply replaceFrom_all; [reflexivity|]).
  apply stripNonAlnum_all.
Qed.

Lemma toLowerCase_alnum s :
  allChars Js.isLowerAlnum s = true -> Js.toLowerCase s = s.
Proof.
  induction s as [|c s IH]; simpl; intros H; [reflexivity|].
  apply andb_prop in H. destruct H as [Hc Hs].
  now rewrite lowerChar_alnum, IH.
Qed.

Lemma stripNonAlnum_alnum s :
  allChars Js.isLowerAlnum s = true -> Js.stripNonAlnum s = s.
Proof.
  induction s as [|c s IH]; simpl; intros H; [reflexivity|].
  apply andb_prop in H. destruct H as [Hc Hs].
  now rewrite Hc, IH.
Qed.

Lemma split_without_separator s :
  allChars Js.isLowerAlnum s = true -> Js.split s = [s].
Proof.
  induction s as [|c s IH]; simpl; intros H; [reflexivity|].
  apply andb_prop in H. destruct H as [Hc Hs].
  now rewrite (alnum_not_separator c Hc), (IH Hs).
Qed.

(** *** Global replacement *)

Lemma prefix_length p s : prefix p s = true -> String.length p <= String.length s.
Proof.
  revert s; induction p as [|a p IH]; intros [|b s]; simpl; try lia; try discriminate.
  destruct (ascii_dec a b); [|discriminate].
  intros H. apply IH in H. lia.
Qed.

Lemma prefix_append p q s : prefix (p ++ q) s = true -> prefix p s = true.
Proof.
  revert s; induction p as [|a p IH]; intros s; simpl; [now destruct s|].
  destruct s as [|b s]; [discriminate|]. simpl.
  destruct (ascii_dec a b); [apply IH|discriminate].
Qed.

Lemma prefix_append_false p q s : prefix p s = false -> prefix (p ++ q) s = false.
Proof.
  intros H. destruct (prefix (p ++ q) s) eqn:E; [|reflexivity].
  apply prefix_append in E. congruence.
Qed.

Lemma includes_append p q s : Js.includes p s = false -> Js.includes (p ++ q) s = false.
Proof.
  induction s as [|c s IH]; cbn [Js.includes]; intros H.
  - now apply prefix_append_false.
  - apply orb_false_elim in H. destruct H as [H1 H2].
    now rewrite (prefix_append_false _ _ _ H1), (IH H2).
Qed.

Lemma replaceAll_absent pat rep s :
  Js.includes pat s = false -> Js.replaceAll pat rep s = s.
Proof.
  unfold Js.replaceAll. induction s as [|c s IH]; simpl; intros H; [reflexivity|].
  apply orb_false_elim in H. destruct H as [H1 H2].
  simpl in H1. rewrite H1. now rewrite IH.
Qed.

Lemma append_length s t : String.length (s ++ t) = String.length s + String.length t.
Proof. induction s as [|c s IH]; simpl; [reflexivity|now rewrite IH]. Qed.

Lemma replaceFrom_length pat rep s :
  String.length rep <= String.length pat ->
  forall k, String.length (Js.replaceFrom pat rep k s) + Nat.min k (String.length s)
            <= String.length s.
Proof.
  intros Hrep. induction s as [|c s IH]; intros k; [simpl; lia|].
  cbn [Js.replaceFrom]. destruct k as [|k].
  - destruct (prefix pat (String c s)) eqn:E.
    + apply prefix_length in E. simpl in E.
      rewrite append_length.
      specialize (IH (String.length pat - 1)). simpl. lia.
    + specialize (IH 0). simpl in *. lia.
  - specialize (IH k). simpl. lia.
Qed.

Lemma replaceAll_length pat rep s :
  String.length rep <= String.length pat ->
  String.length (Js.replaceAll pat rep s) <= String.length s.
Proof.
  intros H. pose proof (replaceFrom_length pat rep s H 0). unfold Js.replaceAll. lia.
Qed.

Lemma replaceAll_shrinks pat rep s :
  String.length rep < String.length pat ->
  Js.includes pat s = true ->
  String.length (Js.replaceAll pat rep s) < String.length s.
Proof.
  intros Hrep. unfold Js.replaceAll.
  induction s as [|c s IH]; intros H.
  - cbn [Js.includes] in H. apply prefix_length in H. simpl in H. lia.
  - cbn [Js.replaceFrom Js.includes] in *.
    destruct (prefix pat (String c s)) eqn:E.
    + apply prefix_length in E. simpl in E. rewrite append_length.
      pose proof (replaceFrom_length pat rep s (Nat.lt_le_incl _ _ Hrep)
                    (String.length pat - 1)).
      simpl. lia.
    + simpl in H. apply IH in H. simpl. lia.
Qed.

(** ** Normalization applied twice *)

Lemma normalize_of_alnum y :
  allChars Js.isLowerAlnum y = true ->
  normalizeModelName y =
  Js.replaceAll "instruction" "it"
    (Js.replaceAll "instruct" "it"
       (Js.replaceAll "large" "" (Js.replaceAll "small" "" y))).
Proof.
  intros H. unfold normalizeModelName.
  now rewrite (toLowerCase_alnum y H), (stripNonAlnum_alnum y H).
Qed.

(** C4, as stated, fails: taking ["small"] out of ["smsmallall"] leaves
    ["small"], which the second normalization takes out. *)
Lemma normalize_twice_differs :
  normalizeModelName "smsmallall" = "small"
  /\ normalizeModelName (normalizeModelName "smsmallall") = ""
  /\ normalizeModelName (normalizeModelName "smsmallall")
     <> normalizeModelName "smsmallall".
Proof. vm_compute. repeat split. discriminate. Qed.

(** C4, amended. Normalizing a second time changes nothing exactly when the
    normalized name contains none of ["small"], ["large"] and ["instruct"];
    a normalized name that still contains one of them gets strictly shorter. *)
Theorem normalize_idempotent_iff x :
  normalizeModelName (normalizeModelName x) = normalizeModelName x
  <-> (Js.includes "small" (normalizeModelName x) = false
       /\ Js.includes "large" (normalizeModelName x) = false
       /\ Js.includes "instruct" (normalizeModelName x) = false).
Proof.
  pose proof (normalize_all x) as Hy.
  set (y := normalizeModelName x) in *.
  rewrite (normalize_of_alnum y Hy).
  split.
  - intros Heq. apply (f_equal String.length) in Heq.
    pose proof (replaceAll_length "small" "" y) as L1.
    pose proof (replaceAll_length "large" "" (Js.replaceAll "small" "" y)) as L2.
    pose proof (replaceAll_length "instruct" "it"
                  (Js.replaceAll "large" "" (Js.replaceAll "small" "" y))) as L3.
    pose proof (replaceAll_length "instruction" "it"
                  (Js.replaceAll "instruct" "it"
                     (Js.replaceAll "large" "" (Js.replaceAll "small" "" y)))) as L4.
    simpl String.length in L1, L2, L3, L4.
    destruct (Js.includes "small" y) eqn:E1.
    { pose proof (replaceAll_shrinks "small" "" y) as S1.
      simpl String.length in S1. specialize (S1 ltac:(lia) E1). lia. }
    rewrite (replaceAll_absent "small" "" y E1) in *.
    destruct (Js.includes "large" y) eqn:E2.
    { pose proof (replaceAll_shrinks "large" "" y) as S2.
      simpl String.length in S2. specialize (S2 ltac:(lia) E2). lia. }
    rewrite (replaceAll_absent "large" "" y E2) in *.
    destruct (Js.includes "instruct" y) eqn:E3.
    { pose proof (replaceAll_shrinks "instruct" "it" y) as S3.
      simpl String.length in S3. specialize (S3 ltac:(lia) E3). lia. }
    repeat split.
  - intros (E1 & E2 & E3).
    rewrite (replaceAll_absent "small" "" y E1).
    rewrite (replaceAll_absent "large" "" y E2).
    rewrite (replaceAll_absent "instruct" "it" y E3).
    apply replaceAll_absent.
    apply (includes_append "instruct" "ion" y E3).
Qed.

(** ** Matcher: which descriptor is found *)

(** The partial rule of [isModelMatch] cannot fire: a normalized name has no
    separator left, so it splits into the one piece it is, and two names
    that reach the rule have different normalized names. *)
Lemma isModelMatch_normalized serverModel requestedModel :
  isModelMatch serverModel requestedModel =
  String.eqb (normalizeModelName serverModel) (normalizeModelName requestedModel).
Proof.
  unfold isModelMatch.
  destruct (String.eqb serverModel requestedModel) eqn:E.
  - apply String.eqb_eq in E. subst. now rewrite String.eqb_refl.
  - destruct (String.eqb (normalizeModelName serverModel)
                (normalizeModelName requestedModel)) eqn:En; [reflexivity|].
    rewrite (split_without_separator _ (normalize_all serverModel)).
    rewrite (split_without_separator _ (normalize_all requestedModel)).
    simpl. now rewrite En.
Qed.

Lemma find_first {A} (f : A -> bool) pre d post :
  f d = true ->
  (exists d', In d' (pre ++ [d]) /\ f d' = true /\ find f (pre ++ d :: post) = Some d')
  /\ ((forall x, In x pre -> f x = false) -> find f (pre ++ d :: post) = Some d).
Proof.
  intros Hd. induction pre as [|a pre IH]; simpl.
  - rewrite Hd. split; [exists d; auto|auto].
  - destruct (f a) eqn:Ea.
    + split; [exists a; auto|].
      intros H. rewrite (H a (or_introl eq_refl)) in Ea. discriminate.
    + destruct IH as [(d' & Hin & Hf & Hfind) IH2]. split.
      * exists d'. auto.
      * intros H. apply IH2. intros x Hx. apply H. now right.
Qed.

Lemma find_first_split {A} (f : A -> bool) pre d post :
  f d = true ->
  exists pre' d' post',
    pre ++ d :: post = pre' ++ d' :: post'
    /\ List.length pre' <= List.length pre
    /\ In d' (pre ++ [d])
    /\ f d' = true
    /\ (forall x, In x pre' -> f x = false)
    /\ find f (pre ++ d :: post) = Some d'.
Proof.
  intros Hd. induction pre as [|a pre IH].
  - exists [], d, post.
    split; [reflexivity|]. split; [simpl; lia|]. split; [now left|].
    split; [exact Hd|]. split; [intros x []|simpl; now rewrite Hd].
  - destruct (f a) eqn:Ea.
    + exists [], a, (pre ++ d :: post).
      split; [reflexivity|]. split; [simpl; lia|]. split; [now left|].
      split; [exact Ea|]. split; [intros x []|simpl; now rewrite Ea].
    + destruct IH as (pre' & d' & post' & Hsplit & Hlen & Hin & Hf & Hpre & Hfind).
      exists (a :: pre'), d', post'.
      split; [simpl; now rewrite Hsplit|]. split; [simpl; lia|]. split; [now right|].
      split; [exact Hf|]. split; [|simpl; now rewrite Ea].
      intros x [<-|Hx]; auto.
Qed.

(** C2, amended. When the requested identifier is the model identifier of a
    healthy descriptor [d] of the snapshot, the matcher returns the URL of
    the first healthy descriptor, in snapshot order, whose normalized
    identifier equals the normalized request: the snapshot splits into
    [pre'], that descriptor [d'] and [post'], where [d'] stands at or before
    [d] and no healthy descriptor of [pre'] has that normalized identifier.
    It returns the URL of [d] itself when no healthy descriptor before [d]
    has that normalized identifier. *)
Theorem exact_match_found_in_snapshot_order cfg w st requested pre d post :
  fst (discoverInferenceServers cfg w st) = pre ++ d :: post ->
  health d = true ->
  modelId d = requested ->
  (exists pre' d' post',
      pre ++ d :: post = pre' ++ d' :: post'
      /\ List.length pre' <= List.length pre
      /\ In d' (pre ++ [d])
      /\ health d' = true
      /\ normalizeModelName (modelId d') = normalizeModelName requested
      /\ (forall x, In x pre' -> health x = true ->
                    normalizeModelName (modelId x) <> normalizeModelName requested)
      /\ fst (getInferenceServerForModel cfg w st requested) = Some (url d'))
  /\ ((forall x, In x pre -> health x = true ->
                 normalizeModelName (modelId x) <> normalizeModelName requested) ->
      fst (getInferenceServerForModel cfg w st requested) = Some (url d)).
Proof.
  intros Hs Hh Hm. rewrite matcher_unfold. cbv zeta. rewrite Hs.
  set (f := fun server => health server && isModelMatch (modelId server) requested).
  assert (Hfd : f d = true).
  { unfold f. rewrite Hh, isModelMatch_normalized, Hm. simpl. apply String.eqb_refl. }
  assert (Hfalse : forall x, f x = false -> health x = true ->
                     normalizeModelName (modelId x) <> normalizeModelName requested).
  { intros x Hx Hhx. unfold f in Hx. rewrite Hhx, isModelMatch_normalized in Hx.
    simpl in Hx. now apply String.eqb_neq. }
  split.
  - destruct (find_first_split f pre d post Hfd)
      as (pre' & d' & post' & Hsplit & Hlen & Hin & Hf & Hpre & Hfind).
    exists pre', d', post'. rewrite Hfind. unfold f in Hf.
    apply andb_prop in Hf. destruct Hf as [Hh' Hm'].
    rewrite isModelMatch_normalized in Hm'. apply String.eqb_eq in Hm'.
    repeat split; auto.
  - intros Hpre. destruct (find_first f pre d post Hfd) as [_ Hfirst].
    rewrite Hfirst; [reflexivity|].
    intros x Hx. unfold f. destruct (health x) eqn:Ehx; [|reflexivity].
    simpl. rewrite isModelMatch_normalized. apply String.eqb_neq. now apply Hpre.
Qed.

Lemma exact_match_found_in_snapshot_order_witness :
  fst (getInferenceServerForModel localConfig documentedFlow initialCache "gemma-2-2b-it")
  = Some "http://127.0.0.1:5005".
Proof.
  apply (exact_match_found_in_snapshot_order localConfig documentedFlow initialCache
           "gemma-2-2b-it" [serverOn 5002 "gpt2-small"]
           (serverOn 5005 "gemma-2-2b-it") []).
  - reflexivity.
  - reflexivity.
  - reflexivity.
  - intros x [<-|[]] _. vm_compute. discriminate.
Defined.

(** C2, as stated, fails: with gpt2 on port 5002 and gpt2-small on port
    5005, a request for ["gpt2-small"] equals the identifier of the second
    descriptor, yet the matcher returns the URL of the first, whose
    normalized identifier is the same. *)
Lemma exact_match_loses_to_earlier_normalized :
  let servers := fst (discoverInferenceServers localConfig gpt2Pair initialCache) in
  let d := serverOn 5005 "gpt2-small" in
  servers = [serverOn 5002 "gpt2"; d]
  /\ health d = true
  /\ modelId d = "gpt2-small"
  /\ isModelMatch "gpt2" "gpt2-small" = true
  /\ fst (getInferenceServerForModel localConfig gpt2Pair initialCache "gpt2-small")
     = Some "http://127.0.0.1:5002"
  /\ fst (getInferenceServerForModel localConfig gpt2Pair initialCache "gpt2-small")
     <> Some (url d).
Proof. vm_compute. repeat split. discriminate. Qed.

(** C3 fails on the code, in the request flow the documentation gives: with
    gpt2-small on port 5002 and gemma-2-2b-it on port 5005, a request for
    ["gemma-2-2b"] matches no descriptor (both normalized names are one
    piece each, and the pieces differ), and the matcher falls back to the
    first healthy descriptor, the one on port 5002. *)
Theorem gemma_request_falls_back :
  fst (discoverInferenceServers localConfig documentedFlow initialCache)
  = [serverOn 5002 "gpt2-small"; serverOn 5005 "gemma-2-2b-it"]
  /\ Js.split (normalizeModelName "gemma-2-2b-it") = ["gemma22bit"]
  /\ Js.split (normalizeModelName "gemma-2-2b") = ["gemma22b"]
  /\ isModelMatch "gemma-2-2b-it" "gemma-2-2b" = false
  /\ fst (getInferenceServerForModel localConfig documentedFlow initialCache "gemma-2-2b")
     = Some "http://127.0.0.1:5002"
  /\ fst (getInferenceServerForModel localConfig documentedFlow initialCache "gemma-2-2b")
     <> Some (url (serverOn 5005 "gemma-2-2b-it")).
Proof. vm_compute. repeat split. discriminate. Qed.

(** ** Host selectors *)

Lemma floorRandomTimes_zero d : floorRandomTimes d 0 = 0.
Proof. unfold floorRandomTimes. rewrite Nat.mul_0_r. apply Nat.Div0.div_0_l. Qed.

Lemma floorRandomTimes_bound d n : 0 < n -> floorRandomTimes d n < n.
Proof.
  intros Hn. unfold floorRandomTimes.
  apply Nat.Div0.div_lt_upper_bound.
  destruct d as [a b]; simpl.
  rewrite !Nat.mul_add_distr_r. lia.
Qed.

Lemma floorRandomTimes_onto n i :
  i < n -> floorRandomTimes {| numer := i; slack := n - 1 - i |} n = i.
Proof.
  intros Hi. unfold floorRandomTimes. simpl.
  replace (i + (n - 1 - i) + 1) with n by lia.
  apply Nat.div_mul. lia.
Qed.

(** C5, as stated, fails in dynamic mode: for a user who is denied access
    the dual-host selector does not fail; it returns the dynamic host twice
    (here the default host, no server being up), while the single-host
    selector returns [null]. *)
Lemma denied_dual_host_dynamic_returns :
  let ext := sampleCatalog false ["http://10.0.0.1:5002"] in
  let w := allDown 1700000000000 in
  USE_LOCALHOST_INFERENCE localConfig = true
  /\ userCanAccessModelAndSourceSet ext "gemma-2-2b" "gemmascope-res-16k" None true = false
  /\ fst (getOneRandomServerHostForSourceSet localConfig ext sampleDraws w initialCache
            "gemma-2-2b" "gemmascope-res-16k" None) = Returned null
  /\ fst (getTwoRandomServerHostsForSourceSet 8 localConfig ext sampleDraws w initialCache
            "gemma-2-2b" "gemmascope-res-16k" None)
     = Some (Returned (hostString "http://127.0.0.1:5002", hostString "http://127.0.0.1:5002"))
  /\ fst (getTwoRandomServerHostsForSourceSet 8 localConfig ext sampleDraws w initialCache
            "gemma-2-2b" "gemmascope-res-16k" None)
     <> Some (Threw (Error "Source set not found.")).
Proof. vm_compute. repeat split. discriminate. Qed.

(** C5, amended. For a user who is denied access to the (model, source set)
    pair, the single-host selector returns [null] in both routing modes and
    leaves the cache alone; the dual-host selector fails with
    "Source set not found." in static mode, and in dynamic mode it returns
    the dynamic host twice without asking for access. *)
Theorem denied_source_set_access {User} fuel cfg (ext : Collaborators User)
    rng w st modelId sourceSetName user :
  userCanAccessModelAndSourceSet ext modelId sourceSetName user true = false ->
  getOneRandomServerHostForSourceSet cfg ext rng w st modelId sourceSetName user
  = (Returned null, st)
  /\ (USE_LOCALHOST_INFERENCE cfg = false ->
      getTwoRandomServerHostsForSourceSet fuel cfg ext rng w st modelId sourceSetName user
      = (Some (Threw (Error "Source set not found.")), st))
  /\ (USE_LOCALHOST_INFERENCE cfg = true ->
      getTwoRandomServerHostsForSourceSet fuel cfg ext rng w st modelId sourceSetName user
      = (Some (Returned
                 (hostString (fst (getDynamicLocalhostInferenceHost cfg w st (Some modelId))),
                  hostString (fst (getDynamicLocalhostInferenceHost cfg w st (Some modelId))))),
         snd (getDynamicLocalhostInferenceHost cfg w st (Some modelId)))).
Proof.
  intros Hdeny.
  unfold getOneRandomServerHostForSourceSet, getTwoRandomServerHostsForSourceSet.
  rewrite Hdeny. simpl. split; [reflexivity|]. split.
  - intros ->. reflexivity.
  - intros ->.
    now destruct (getDynamicLocalhostInferenceHost cfg w st (Some modelId)).
Qed.

Lemma denied_source_set_access_witness :
  let ext := sampleCatalog false ["http://10.0.0.1:5002"] in
  getTwoRandomServerHostsForSourceSet 8 staticConfig ext sampleDraws
    (allDown 1700000000000) initialCache "gemma-2-2b" "gemmascope-res-16k" None
  = (Some (Threw (Error "Source set not found.")), initialCache).
Proof.
  intros ext.
  apply (denied_source_set_access 8 staticConfig ext sampleDraws
           (allDown 1700000000000) initialCache "gemma-2-2b" "gemmascope-res-16k" None).
  - reflexivity.
  - reflexivity.
Defined.

(** C6. In static mode the source-scoped selector throws "Source not found."
    when the adapter reports no source; when the adapter reports a source
    with an empty host list the random index is 0 and reading
    [hosts[0].inferenceHost] throws a [TypeError]; it returns the URL of one
    of the hosts when the list is not empty.  It never fails with
    "No hosts found.". *)
Theorem source_selector_unguarded_empty_list {User} cfg (ext : Collaborators User)
    rng w st modelId sourceId user :
  USE_LOCALHOST_INFERENCE cfg = false ->
  let r := getOneRandomServerHostForSource cfg ext rng w st modelId sourceId user in
  (getSourceInferenceHosts ext modelId sourceId user = None ->
   r = (Threw (Error "Source not found."), st))
  /\ (getSourceInferenceHosts ext modelId sourceId user = Some [] ->
      floorRandomTimes (rng 0) 0 = 0 /\ r = (Threw TypeError, st))
  /\ (forall hosts,
        getSourceInferenceHosts ext modelId sourceId user = Some hosts ->
        hosts <> [] ->
        exists h, In h hosts
                  /\ r = (Returned (hostString (Prisma.hostUrl (Prisma.inferenceHost h))), st))
  /\ fst r <> Threw (Error "No hosts found.").
Proof.
  intros Hstatic r. subst r. unfold getOneRandomServerHostForSource. rewrite Hstatic.
  split; [|split; [|split]].
  - intros ->. reflexivity.
  - intros ->. cbn [List.length]. rewrite floorRandomTimes_zero. split; reflexivity.
  - intros hosts -> Hne.
    assert (Hlt : floorRandomTimes (rng 0) (List.length hosts) < List.length hosts).
    { apply floorRandomTimes_bound. destruct hosts; [congruence|simpl; lia]. }
    destruct (nth_error hosts (floorRandomTimes (rng 0) (List.length hosts))) as [h|] eqn:E.
    + exists h. split; [eapply nth_error_In; eauto|reflexivity].
    + apply nth_error_None in E. lia.
  - destruct (getSourceInferenceHosts ext modelId sourceId user) as [hosts|]; simpl.
    + destruct (nth_error hosts _); simpl; discriminate.
    + discriminate.
Qed.

Lemma source_selector_unguarded_empty_list_witness :
  fst (getOneRandomServerHostForSource staticConfig (sampleCatalog true [])
         sampleDraws (allDown 1700000000000) initialCache "gemma-2-2b" "20-gemmascope-res-16k" None)
  = Threw TypeError.
Proof.
  destruct (source_selector_unguarded_empty_list staticConfig (sampleCatalog true [])
              sampleDraws (allDown 1700000000000) initialCache
              "gemma-2-2b" "20-gemmascope-res-16k" None eq_refl) as (_ & H & _).
  destruct (H eq_refl) as [_ E]. now rewrite E.
Defined.

(** *** De-duplication *)

Lemma arrayIncludes_In arr x : Js.arrayIncludes arr x = true <-> In x arr.
Proof.
  unfold Js.arrayIncludes. rewrite existsb_exists. split.
  - intros (y & Hy & E). apply String.eqb_eq in E. now subst.
  - intros H. exists x. split; [exact H|apply String.eqb_refl].
Qed.

Lemma uniqueFrom_In seen hosts x :
  In x (uniqueFrom seen hosts) <-> In x hosts /\ ~ In x seen.
Proof.
  revert seen; induction hosts as [|h hosts IH]; intros seen; simpl; [tauto|].
  destruct (Js.arrayIncludes seen h) eqn:E.
  - apply arrayIncludes_In in E. rewrite IH. split.
    + tauto.
    + intros [[->|H] Hn]; [contradiction|tauto].
  - assert (Hn : ~ In h seen).
    { intros H. apply arrayIncludes_In in H. congruence. }
    simpl. rewrite IH. simpl. split.
    + intros [->|[H1 H2]]; [tauto|tauto].
    + intros [[->|H] Hs]; [tauto|].
      destruct (string_dec h x); [tauto|]. right. tauto.
Qed.

Lemma uniqueFrom_NoDup seen hosts : NoDup (uniqueFrom seen hosts).
Proof.
  revert seen; induction hosts as [|h hosts IH]; intros seen; simpl; [constructor|].
  destruct (Js.arrayIncludes seen h); [apply IH|].
  constructor; [|apply IH].
  rewrite uniqueFrom_In. simpl. tauto.
Qed.

Lemma unique_In hosts x : In x (unique hosts) <-> In x hosts.
Proof. unfold unique. rewrite uniqueFrom_In. simpl. tauto. Qed.

(** *** The rejection loop *)

Section Resample.

Variable rng : nat -> Draw.
Variables n randomIndex : nat.

Lemma resample_ends k :
  forall next randomIndex2,
    candidate rng n next randomIndex2 k <> randomIndex ->
    exists r j,
      j <= k /\ r = candidate rng n next randomIndex2 j /\ r <> randomIndex
      /\ forall fuel, k < fuel ->
           resample fuel rng next n randomIndex randomIndex2 = Some r.
Proof.
  induction k as [|k IH]; intros next i2 Hk.
  - simpl in Hk. exists i2, 0. repeat split; auto.
    intros [|fuel] Hf; [lia|]. simpl.
    destruct (Nat.eqb_spec i2 randomIndex); [contradiction|reflexivity].
  - destruct (Nat.eqb_spec i2 randomIndex) as [E|E].
    + destruct (IH (S next) (floorRandomTimes (rng next) n)) as (r & j & Hj & Hr & Hne & Hrun).
      { destruct k as [|k]; simpl in *;
          [now rewrite Nat.add_0_r in Hk|now rewrite Nat.add_succ_r in Hk]. }
      exists r, (S j). repeat split; auto; try lia.
      * rewrite Hr. destruct j as [|j]; simpl; [now rewrite Nat.add_0_r|].
        now rewrite Nat.add_succ_r.
      * intros [|fuel] Hf; [lia|]. simpl.
        destruct (Nat.eqb_spec i2 randomIndex); [|contradiction].
        apply Hrun. lia.
    + exists i2, 0. repeat split; auto; try lia.
      intros [|fuel] Hf; [lia|]. simpl.
      destruct (Nat.eqb_spec i2 randomIndex); [contradiction|reflexivity].
Qed.

Lemma resample_spins fuel :
  forall next randomIndex2,
    (forall k, candidate rng n next randomIndex2 k = randomIndex) ->
    resample fuel rng next n randomIndex randomIndex2 = None.
Proof.
  induction fuel as [|fuel IH]; intros next i2 Hall; [reflexivity|].
  simpl. pose proof (Hall 0) as H0. simpl in H0. subst i2.
  rewrite Nat.eqb_refl. apply IH.
  intros [|k].
  - simpl. specialize (Hall 1). simpl in Hall. now rewrite Nat.add_0_r in Hall.
  - simpl. specialize (Hall (S (S k))). simpl in Hall.
    now rewrite Nat.add_succ_r in Hall.
Qed.

End Resample.

(** *** Two hosts out of the candidate list *)

Lemma candidate_draw rng n randomIndex2 k :
  randomIndex2 = floorRandomTimes (rng 1) n ->
  candidate rng n 2 randomIndex2 k = floorRandomTimes (rng (S k)) n.
Proof. intros ->. destruct k; reflexivity. Qed.

Lemma elementAt_in_range hosts i :
  i < List.length hosts ->
  exists h, nth_error hosts i = Some h /\ elementAt hosts i = hostString h /\ In h hosts.
Proof.
  intros Hi. unfold elementAt.
  destruct (nth_error hosts i) as [h|] eqn:E.
  - exists h. repeat split. eapply nth_error_In; eauto.
  - apply nth_error_None in E. lia.
Qed.

Lemma pickTwoHosts_spec rng hosts :
  let candidates := unique hosts in
  let pick k := floorRandomTimes (rng k) (List.length candidates) in
  (hosts = [] ->
   forall fuel, pickTwoHosts fuel rng hosts = Some (Threw (Error "No hosts found.")))
  /\ (forall h, candidates = [h] ->
      forall fuel, pickTwoHosts fuel rng hosts
                   = Some (Returned (hostString h, hostString h)))
  /\ (2 <= List.length candidates ->
      (exists k, pick (S k) <> pick 0) ->
      exists h1 h2 fuel0,
        In h1 candidates /\ In h2 candidates /\ h1 <> h2
        /\ forall fuel, fuel0 <= fuel ->
             pickTwoHosts fuel rng hosts
             = Some (Returned (hostString h1, hostString h2)))
  /\ (2 <= List.length candidates ->
      (forall k, pick (S k) = pick 0) ->
      forall fuel, pickTwoHosts fuel rng hosts = None).
Proof.
  intros candidates pick.
  assert (Hne : 1 <= List.length candidates -> (List.length hosts =? 0)%nat = false).
  { intros H. destruct hosts; [simpl in H; lia|reflexivity]. }
  split; [|split; [|split]].
  - intros -> fuel. reflexivity.
  - intros h Hc fuel. unfold pickTwoHosts.
    rewrite Hne by (unfold candidates in *; rewrite Hc; simpl; lia).
    fold candidates. rewrite Hc. reflexivity.
  - intros H2 [k Hk].
    destruct (resample_ends rng (List.length candidates) (pick 0) k 2 (pick 1))
      as (r & j & Hj & Hr & Hdiff & Hrun).
    { now rewrite candidate_draw. }
    rewrite candidate_draw in Hr by reflexivity.
    assert (Hi : pick 0 < List.length candidates) by (apply floorRandomTimes_bound; lia).
    assert (Hr' : r < List.length candidates) by (subst r; apply floorRandomTimes_bound; lia).
    destruct (elementAt_in_range candidates (pick 0) Hi) as (h1 & N1 & E1 & I1).
    destruct (elementAt_in_range candidates r Hr') as (h2 & N2 & E2 & I2).
    exists h1, h2, (S k). repeat split; auto.
    + intros ->. apply Hdiff. symmetry.
      apply (proj1 (NoDup_nth_error candidates) (uniqueFrom_NoDup [] hosts) (pick 0) r Hi).
      now rewrite N1, N2.
    + intros fuel Hf. unfold pickTwoHosts.
      rewrite Hne by lia. fold candidates.
      replace (List.length candidates <? 2)%nat with false
        by (symmetry; apply Nat.ltb_ge; lia).
      fold (pick 0). fold (pick 1).
      rewrite Hrun by lia. now rewrite E1, E2.
  - intros H2 Hall fuel. unfold pickTwoHosts.
    rewrite Hne by lia. fold candidates.
    replace (List.length candidates <? 2)%nat with false
      by (symmetry; apply Nat.ltb_ge; lia).
    fold (pick 0). fold (pick 1).
    rewrite resample_spins; [reflexivity|].
    intros k. rewrite candidate_draw by reflexivity. apply Hall.
Qed.

(** C8. In static mode, for both dual-host selectors (the source-set one
    once access is granted): the candidates are the distinct URLs of the raw
    host list; an empty raw list fails with "No hosts found."; a single
    candidate is returned twice; with two or more candidates, and a random
    source one of whose later draws gives an index other than the first,
    the loop ends and two different candidates are returned.  A random
    source that repeats the first index for ever keeps the loop running. *)
Theorem dual_host_static_selection {User} cfg (ext : Collaborators User)
    rng w st modelId sourceSetName user
    (hosts : list string) (run : nat -> option (Completion (Host * Host)) * Cache) :
  USE_LOCALHOST_INFERENCE cfg = false ->
  (hosts = getAllServerHostsForModel ext modelId
   /\ run = (fun fuel => getTwoRandomServerHostsForModel fuel cfg ext rng w st modelId))
  \/ (userCanAccessModelAndSourceSet ext modelId sourceSetName user true = true
      /\ hosts = getAllServerHostsForSourceSet ext modelId sourceSetName
      /\ run = (fun fuel =>
                  getTwoRandomServerHostsForSourceSet fuel cfg ext rng w st
                    modelId sourceSetName user)) ->
  let candidates := unique hosts in
  let pick k := floorRandomTimes (rng k) (List.length candidates) in
  NoDup candidates
  /\ (forall h, In h candidates <-> In h hosts)
  /\ (hosts = [] ->
      forall fuel, run fuel = (Some (Threw (Error "No hosts found.")), st))
  /\ (forall h, candidates = [h] ->
      forall fuel, run fuel = (Some (Returned (hostString h, hostString h)), st))
  /\ (2 <= List.length candidates ->
      (exists k, pick (S k) <> pick 0) ->
      exists h1 h2 fuel0,
        In h1 candidates /\ In h2 candidates /\ h1 <> h2
        /\ forall fuel, fuel0 <= fuel ->
             run fuel = (Some (Returned (hostString h1, hostString h2)), st))
  /\ (2 <= List.length candidates ->
      (forall k, pick (S k) = pick 0) ->
      forall fuel, fst (run fuel) = None).
Proof.
  intros Hstatic Hsel candidates pick.
  assert (Hrun : forall fuel, run fuel = (pickTwoHosts fuel rng hosts, st)).
  { intros fuel. destruct Hsel as [[-> ->]|(Hacc & -> & ->)].
    - unfold getTwoRandomServerHostsForModel. now rewrite Hstatic.
    - unfold getTwoRandomServerHostsForSourceSet. now rewrite Hstatic, Hacc. }
  destruct (pickTwoHosts_spec rng hosts) as (P0 & P1 & P2 & P3).
  split; [apply uniqueFrom_NoDup|].
  split; [intros h; apply unique_In|].
  split; [intros He fuel; now rewrite Hrun, P0|].
  split; [intros h Hc fuel; now rewrite Hrun, (P1 h Hc)|].
  split.
  - intros H2 Hk. destruct (P2 H2 Hk) as (h1 & h2 & fuel0 & I1 & I2 & Hd & Hp).
    exists h1, h2, fuel0. repeat split; auto.
    intros fuel Hf. now rewrite Hrun, (Hp fuel Hf).
  - intros H2 Hall fuel. now rewrite Hrun, (P3 H2 Hall).
Qed.

Lemma dual_host_static_selection_witness :
  let ext := sampleCatalog true
               ["http://10.0.0.1:5002"; "http://10.0.0.2:5002"; "http://10.0.0.1:5002"] in
  let run fuel :=
    getTwoRandomServerHostsForSourceSet fuel staticConfig ext sampleDraws
      (allDown 1700000000000) initialCache "gemma-2-2b" "gemmascope-res-16k" None in
  exists h1 h2 fuel0,
    In h1 ["http://10.0.0.1:5002"; "http://10.0.0.2:5002"]
    /\ In h2 ["http://10.0.0.1:5002"; "http://10.0.0.2:5002"]
    /\ h1 <> h2
    /\ forall fuel, fuel0 <= fuel ->
         run fuel = (Some (Returned (hostString h1, hostString h2)), initialCache).
Proof.
  intros ext run.
  destruct (dual_host_static_selection staticConfig ext sampleDraws
              (allDown 1700000000000) initialCache "gemma-2-2b" "gemmascope-res-16k" None
              (getAllServerHostsForSourceSet ext "gemma-2-2b" "gemmascope-res-16k")
              run eq_refl
              (or_intror (conj eq_refl (conj eq_refl eq_refl))))
    as (_ & _ & _ & _ & H & _).
  apply H.
  - simpl. lia.
  - exists 1. vm_compute. discriminate.
Defined.

(** * Further properties of the code *)

(** ** Normalization *)

Lemma toLowerCase_length s : String.length (Js.toLowerCase s) = String.length s.
Proof. induction s as [|c s IH]; simpl; [reflexivity|now rewrite IH]. Qed.

Lemma stripNonAlnum_length s : String.length (Js.stripNonAlnum s) <= String.length s.
Proof.
  induction s as [|c s IH]; simpl; [lia|].
  destruct (Js.isLowerAlnum c); simpl; lia.
Qed.

(** X1. A normalized name is made of the characters a-z and 0-9 only, and it
    is never longer than the name it comes from. *)
Theorem normalize_alphabet_and_length x :
  allChars Js.isLowerAlnum (normalizeModelName x) = true
  /\ String.length (normalizeModelName x) <= String.length x.
Proof.
  split; [apply normalize_all|].
  unfold normalizeModelName.
  set (z := Js.stripNonAlnum (Js.toLowerCase x)).
  pose proof (replaceAll_length "small" "" z) as L1.
  pose proof (replaceAll_length "large" "" (Js.replaceAll "small" "" z)) as L2.
  pose proof (replaceAll_length "instruct" "it"
                (Js.replaceAll "large" "" (Js.replaceAll "small" "" z))) as L3.
  pose proof (replaceAll_length "instruction" "it"
                (Js.replaceAll "instruct" "it"
                   (Js.replaceAll "large" "" (Js.replaceAll "small" "" z)))) as L4.
  simpl String.length in L1, L2, L3, L4.
  pose proof (stripNonAlnum_length (Js.toLowerCase x)) as L0.
  rewrite toLowerCase_length in L0. fold z in L0. lia.
Qed.

Lemma lowerChar_idempotent c : Js.lowerChar (Js.lowerChar c) = Js.lowerChar c.
Proof. each_char c. Qed.

Lemma toLowerCase_idempotent s : Js.toLowerCase (Js.toLowerCase s) = Js.toLowerCase s.
Proof.
  induction s as [|c s IH]; simpl; [reflexivity|].
  now rewrite lowerChar_idempotent, IH.
Qed.

Lemma toLowerCase_append s t :
  Js.toLowerCase (s ++ t) = (Js.toLowerCase s ++ Js.toLowerCase t)%string.
Proof. induction s as [|c s IH]; simpl; [reflexivity|now rewrite IH]. Qed.

Lemma stripNonAlnum_append s t :
  Js.stripNonAlnum (s ++ t) = (Js.stripNonAlnum s ++ Js.stripNonAlnum t)%string.
Proof.
  induction s as [|c s IH]; simpl; [reflexivity|].
  destruct (Js.isLowerAlnum c); simpl; now rewrite IH.
Qed.

(** X2. Normalization does not see the case of letters, and it does not see
    a character that is neither a letter nor a digit, wherever it stands. *)
Theorem normalize_ignores_case_and_punctuation :
  (forall x, normalizeModelName (Js.toLowerCase x) = normalizeModelName x)
  /\ (forall a c b,
        Js.isLowerAlnum (Js.lowerChar c) = false ->
        normalizeModelName (a ++ String c b) = normalizeModelName (a ++ b)).
Proof.
  split.
  - intros x. unfold normalizeModelName. now rewrite toLowerCase_idempotent.
  - intros a c b Hc. unfold normalizeModelName.
    rewrite !toLowerCase_append, !stripNonAlnum_append. simpl. now rewrite Hc.
Qed.

Lemma normalize_ignores_case_and_punctuation_witness :
  normalizeModelName "Gemma-2-2B" = normalizeModelName "Gemma2-2B".
Proof.
  apply (proj2 normalize_ignores_case_and_punctuation "Gemma" "-"%char "2-2B").
  reflexivity.
Defined.

(** *** The replacement of "instruction" *)

Lemma prefix_cons a p b s :
  prefix (String a p) (String b s) = if ascii_dec a b then prefix p s else false.
Proof. reflexivity. Qed.

Lemma instruct_prefix_kept t :
  forall q,
    allChars (fun c => negb (Ascii.eqb c "i")) q = true ->
    prefix q (Js.replaceFrom "instruct" "it" 0 t) = true ->
    prefix q t = true.
Proof.
  induction t as [|d t IH]; intros q Hq H; [exact H|].
  destruct q as [|q0 q]; [reflexivity|].
  cbn [allChars] in Hq. apply andb_prop in Hq. destruct Hq as [Hq0 Hq].
  cbn [Js.replaceFrom] in H.
  destruct (prefix "instruct" (String d t)).
  - change (("it" ++ Js.replaceFrom "instruct" "it" (String.length "instruct" - 1) t)%string)
      with (String "i" (String "t" (Js.replaceFrom "instruct" "it" 7 t))) in H.
    rewrite prefix_cons in H.
    destruct (ascii_dec q0 "i") as [->|]; [discriminate Hq0|discriminate H].
  - rewrite prefix_cons in H |- *.
    destruct (ascii_dec q0 d); [|discriminate]. now apply IH.
Qed.

Lemma instruct_gone s :
  forall k, Js.includes "instruct" (Js.replaceFrom "instruct" "it" k s) = false.
Proof.
  induction s as [|c s IH]; intros k; [reflexivity|].
  cbn [Js.replaceFrom]. destruct k as [|k]; [|apply IH].
  destruct (prefix "instruct" (String c s)) eqn:E.
  - change (("it" ++ Js.replaceFrom "instruct" "it" (String.length "instruct" - 1) s)%string)
      with (String "i" (String "t" (Js.replaceFrom "instruct" "it" 7 s))).
    cbn [Js.includes]. rewrite IH.
    rewrite !prefix_cons.
    destruct (ascii_dec "i" "i"); [|congruence].
    destruct (ascii_dec "n" "t"); [discriminate|].
    destruct (ascii_dec "i" "t"); [discriminate|]. reflexivity.
  - cbn [Js.includes]. rewrite IH, orb_false_r.
    destruct (prefix "instruct" (String c (Js.replaceFrom "instruct" "it" 0 s))) eqn:E2;
      [|reflexivity].
    rewrite prefix_cons in E, E2.
    destruct (ascii_dec "i" c); [|discriminate].
    apply instruct_prefix_kept in E2; [congruence|reflexivity].
Qed.

Lemma normalize_without_last x :
  normalizeModelName x =
    Js.replaceAll "instruct" "it"
      (Js.replaceAll "large" ""
         (Js.replaceAll "small" "" (Js.stripNonAlnum (Js.toLowerCase x)))).
Proof.
  unfold normalizeModelName. apply replaceAll_absent.
  apply (includes_append "instruct" "ion"). apply instruct_gone.
Qed.

Lemma normalize_no_instruct x : Js.includes "instruct" (normalizeModelName x) = false.
Proof. rewrite normalize_without_last. apply instruct_gone. Qed.

(** X3. The last replacement of [normalizeModelName], of "instruction",
    never changes anything: the replacement of "instruct" before it leaves
    no "instruct" behind.  A normalized name therefore never contains
    "instruct", and "instruction" comes out as "ition". *)
Theorem instruction_replacement_is_dead x :
  normalizeModelName x =
    Js.replaceAll "instruct" "it"
      (Js.replaceAll "large" ""
         (Js.replaceAll "small" "" (Js.stripNonAlnum (Js.toLowerCase x))))
  /\ Js.includes "instruct" (normalizeModelName x) = false
  /\ normalizeModelName "instruction" = "ition".
Proof.
  split; [apply normalize_without_last|]. split; [apply normalize_no_instruct|reflexivity].
Qed.

(** X17. Normalizing a second time changes nothing exactly when the
    normalized name contains neither "small" nor "large": these are the
    only two ways for normalization not to be idempotent. *)
Theorem normalize_idempotent_iff_no_size_word x :
  normalizeModelName (normalizeModelName x) = normalizeModelName x
  <-> (Js.includes "small" (normalizeModelName x) = false
       /\ Js.includes "large" (normalizeModelName x) = false).
Proof.
  pose proof (normalize_all x) as Hy.
  pose proof (normalize_no_instruct x) as E3.
  set (y := normalizeModelName x) in *.
  rewrite (normalize_of_alnum y Hy).
  split.
  - intros Heq. apply (f_equal String.length) in Heq.
    pose proof (replaceAll_length "small" "" y) as L1.
    pose proof (replaceAll_length "large" "" (Js.replaceAll "small" "" y)) as L2.
    pose proof (replaceAll_length "instruct" "it"
                  (Js.replaceAll "large" "" (Js.replaceAll "small" "" y))) as L3.
    pose proof (replaceAll_length "instruction" "it"
                  (Js.replaceAll "instruct" "it"
                     (Js.replaceAll "large" "" (Js.replaceAll "small" "" y)))) as L4.
    simpl String.length in L1, L2, L3, L4.
    destruct (Js.includes "small" y) eqn:E1.
    { pose proof (replaceAll_shrinks "small" "" y) as S1.
      simpl String.length in S1. specialize (S1 ltac:(lia) E1). lia. }
    rewrite (replaceAll_absent "small" "" y E1) in *.
    destruct (Js.includes "large" y) eqn:E2.
    { pose proof (replaceAll_shrinks "large" "" y) as S2.
      simpl String.length in S2. specialize (S2 ltac:(lia) E2). lia. }
    split; reflexivity.
  - intros (E1 & E2).
    rewrite (replaceAll_absent "small" "" y E1).
    rewrite (replaceAll_absent "large" "" y E2).
    rewrite (replaceAll_absent "instruct" "it" y E3).
    apply replaceAll_absent.
    apply (includes_append "instruct" "ion" y E3).
Qed.

(** X4. [isModelMatch] holds exactly when the two names have the same
    normalized form; it is reflexive, symmetric and transitive, and the
    rule on common parts never decides a match. *)
Theorem isModelMatch_is_normalized_equality :
  (forall a b, isModelMatch a b = true <-> normalizeModelName a = normalizeModelName b)
  /\ (forall a, isModelMatch a a = true)
  /\ (forall a b, isModelMatch a b = isModelMatch b a)
  /\ (forall a b c, isModelMatch a b = true -> isModelMatch b c = true ->
                    isModelMatch a c = true).
Proof.
  split; [|split; [|split]].
  - intros a b. rewrite isModelMatch_normalized. apply String.eqb_eq.
  - intros a. rewrite isModelMatch_normalized. apply String.eqb_refl.
  - intros a b. rewrite !isModelMatch_normalized. apply String.eqb_sym.
  - intros a b c. rewrite !isModelMatch_normalized, !String.eqb_eq. congruence.
Qed.

Lemma isModelMatch_is_normalized_equality_witness :
  isModelMatch "GPT2-Small" "gpt2" = true.
Proof.
  destruct isModelMatch_is_normalized_equality as (_ & _ & _ & Htrans).
  apply (Htrans "GPT2-Small" "gpt2_small" "gpt2"); reflexivity.
Defined.

(** ** Discovery *)

Lemma reportedModelId_nonempty hd : reportedModelId hd <> "".
Proof.
  unfold reportedModelId, truthy.
  destruct (model_id hd) as [a|]; [destruct (String.eqb a "") eqn:Ea|]; simpl;
    try (apply String.eqb_neq; exact Ea);
    (destruct (model hd) as [b|]; [destruct (String.eqb b "") eqn:Eb|]; simpl;
     try (apply String.eqb_neq; exact Eb); discriminate).
Qed.

(** X5. The model identifier read from a health response is never the empty
    string: a [model_id] that is missing or empty is passed over for
    [model], and a [model] that is missing or empty for "unknown"; a
    non-empty [model_id] always wins. *)
Theorem reported_model_id_precedence hd :
  reportedModelId hd <> ""
  /\ (forall s, model_id hd = Some s -> s <> "" -> reportedModelId hd = s)
  /\ (forall s, (model_id hd = None \/ model_id hd = Some "") ->
                model hd = Some s -> s <> "" -> reportedModelId hd = s)
  /\ ((model_id hd = None \/ model_id hd = Some "") ->
      (model hd = None \/ model hd = Some "") ->
      reportedModelId hd = "unknown").
Proof.
  split; [apply reportedModelId_nonempty|].
  unfold reportedModelId, truthy. split; [|split].
  - intros s -> Hs. apply String.eqb_neq in Hs. now rewrite Hs.
  - intros s [->| ->] -> Hs; apply String.eqb_neq in Hs; simpl; now rewrite Hs.
  - intros [->| ->] [->| ->]; reflexivity.
Qed.

Lemma reported_model_id_precedence_witness :
  reportedModelId {| model_id := Some ""; model := Some "gemma-2-2b-it" |} = "gemma-2-2b-it".
Proof.
  destruct (reported_model_id_precedence
              {| model_id := Some ""; model := Some "gemma-2-2b-it" |}) as (_ & _ & H & _).
  apply H; [now right|reflexivity|discriminate].
Defined.

Lemma probePort_spec cfg w p d :
  probePort cfg w p = Some d <->
  exists hd, fetchHealth w p = Some hd
             /\ d = {| port := p; modelId := reportedModelId hd;
                       url := portUrl cfg p; health := true |}.
Proof.
  unfold probePort, portUrl. destruct (fetchHealth w p) as [hd|]; split.
  - intros H. injection H as <-. now exists hd.
  - intros (hd' & H & ->). now injection H as ->.
  - discriminate.
  - intros (hd' & H & _). discriminate.
Qed.

Lemma insertSettled_perm w d l : Permutation (insertSettled w d l) (d :: l).
Proof.
  induction l as [|x l IH]; simpl; [reflexivity|].
  destruct (_ <? _)%nat; [|reflexivity].
  rewrite IH. apply perm_swap.
Qed.

(** The descriptors of the ports of [ports] that answer, in request order. *)
Lemma probeAll_perm cfg w ports :
  Permutation (fst (probeAll cfg w ports))
    (flat_map (fun p => match probePort cfg w p with Some d => [d] | None => [] end) ports).
Proof.
  induction ports as [|p ports IH]; simpl; [reflexivity|].
  destruct (probeAll cfg w ports) as [rest sent]; simpl in *.
  destruct (probePort cfg w p) as [d|]; simpl; [|exact IH].
  rewrite insertSettled_perm. now constructor.
Qed.

Lemma probeAll_ports cfg w ports :
  Permutation (map port (fst (probeAll cfg w ports)))
    (filter (fun p => match fetchHealth w p with Some _ => true | None => false end) ports).
Proof.
  rewrite (Permutation_map port (probeAll_perm cfg w ports)).
  induction ports as [|p ports IH]; simpl; [reflexivity|].
  unfold probePort at 1. destruct (fetchHealth w p); simpl; [now constructor|exact IH].
Qed.

Lemma portsToCheck_NoDup : NoDup portsToCheck.
Proof.
  rewrite portsToCheck_value.
  repeat (constructor;
          [simpl; intros H; repeat (destruct H as [H|H]; [discriminate H|]); exact H|]).
  constructor.
Qed.

Lemma probeAll_In cfg w ports d :
  In d (fst (probeAll cfg w ports)) <->
  In (port d) ports
  /\ exists hd, fetchHealth w (port d) = Some hd
                /\ d = {| port := port d; modelId := reportedModelId hd;
                          url := portUrl cfg (port d); health := true |}.
Proof.
  rewrite (Permutation_in' (eq_refl d) (probeAll_perm cfg w ports)).
  rewrite in_flat_map. split.
  - intros (p & Hp & Hd).
    destruct (probePort cfg w p) as [d'|] eqn:E; [|contradiction].
    destruct Hd as [<-|[]].
    apply probePort_spec in E. destruct E as (hd & Hf & ->). simpl.
    split; [exact Hp|]. now exists hd.
  - intros (Hp & hd & Hf & Hd). exists (port d). split; [exact Hp|].
    assert (E : probePort cfg w (port d) = Some d).
    { apply probePort_spec. now exists hd. }
    rewrite E. now left.
Qed.

(** X6. A round of probes yields exactly one descriptor for every scanned
    port that answers and none for the others; the descriptor is healthy and
    carries the port, the URL built for the port and the reported model
    identifier.  No port occurs twice and there are at most 17
    descriptors. *)
Theorem probe_round_contents cfg w :
  let servers := fst (probeAll cfg w portsToCheck) in
  (forall d, In d servers <->
             In (port d) portsToCheck
             /\ exists hd, fetchHealth w (port d) = Some hd
                           /\ d = {| port := port d; modelId := reportedModelId hd;
                                     url := portUrl cfg (port d); health := true |})
  /\ (forall p hd, In p portsToCheck -> fetchHealth w p = Some hd ->
                   exists d, In d servers /\ port d = p)
  /\ NoDup (map port servers)
  /\ List.length servers <= 17.
Proof.
  cbv zeta. split; [intros d; apply probeAll_In|]. split; [|split].
  - intros p hd Hp Hf.
    exists {| port := p; modelId := reportedModelId hd; url := portUrl cfg p; health := true |}.
    split; [|reflexivity]. apply probeAll_In. simpl. split; [exact Hp|]. now exists hd.
  - eapply Permutation_NoDup; [symmetry; apply probeAll_ports|].
    apply NoDup_filter, portsToCheck_NoDup.
  - rewrite <- (length_map port), (Permutation_length (probeAll_ports cfg w portsToCheck)).
    etransitivity; [apply filter_length_le|].
    rewrite portsToCheck_value. simpl. lia.
Qed.

Lemma probe_round_contents_witness :
  exists d, In d (fst (probeAll localConfig documentedFlow portsToCheck))
            /\ port d = 5005%Z.
Proof.
  destruct (probe_round_contents localConfig documentedFlow) as (_ & H & _).
  apply (H 5005%Z {| model_id := Some "gemma-2-2b-it"; model := None |}).
  - rewrite portsToCheck_value. simpl. tauto.
  - reflexivity.
Defined.

Lemma append_changes {A} (l r : list A) : r <> [] -> l ++ r <> l.
Proof.
  intros Hr H. apply (f_equal (@List.length A)) in H.
  rewrite length_app in H. destruct r; [congruence|simpl in H; lia].
Qed.

(** X7. A call of [discoverInferenceServers] sends health requests exactly
    when 30000 ms or more have passed since the last round or the cached
    snapshot is empty; it then sends one whole round, returns what answered
    and stamps the cache with the time read at the start of the call.  In
    every case the list returned is the list the cache holds afterwards. *)
Theorem discovery_probes_iff_stale_or_empty cfg w st :
  let r := discoverInferenceServers cfg w st in
  (healthRequests (snd r) <> healthRequests st
   <-> (DISCOVERY_CACHE_TTL <= now w - _lastDiscovery st)%Z \/ _cachedServers st = [])
  /\ ((DISCOVERY_CACHE_TTL <= now w - _lastDiscovery st)%Z \/ _cachedServers st = [] ->
      r = (fst (probeAll cfg w portsToCheck),
           {| _cachedServers := fst (probeAll cfg w portsToCheck);
              _lastDiscovery := now w;
              healthRequests := healthRequests st ++ portsToCheck |}))
  /\ _cachedServers (snd r) = fst r.
Proof.
  cbv zeta.
  destruct ((now w - _lastDiscovery st <? DISCOVERY_CACHE_TTL)%Z
            && (0 <? List.length (_cachedServers st))%nat) eqn:Hc.
  - rewrite (discover_cached _ _ _ Hc). cbn [fst snd].
    apply andb_prop in Hc. destruct Hc as [Ht Hl].
    apply Z.ltb_lt in Ht. apply Nat.ltb_lt in Hl.
    assert (Hno : ~ ((DISCOVERY_CACHE_TTL <= now w - _lastDiscovery st)%Z
                     \/ _cachedServers st = [])).
    { intros [H|H]; [lia|]. rewrite H in Hl. simpl in Hl. lia. }
    split; [|split].
    + split; [intros H; now contradiction H|intros H; now contradiction Hno].
    + intros H. now contradiction Hno.
    + reflexivity.
  - rewrite (discover_probes _ _ _ Hc).
    cbn [fst snd _cachedServers _lastDiscovery healthRequests].
    assert (Hyes : (DISCOVERY_CACHE_TTL <= now w - _lastDiscovery st)%Z
                   \/ _cachedServers st = []).
    { apply andb_false_iff in Hc. destruct Hc as [Ht|Hl].
      - left. apply Z.ltb_ge in Ht. exact Ht.
      - right. destruct (_cachedServers st); [reflexivity|discriminate]. }
    split; [|split].
    + split; [intros _; exact Hyes|].
      intros _. apply append_changes. rewrite portsToCheck_value. discriminate.
    + intros _. reflexivity.
    + reflexivity.
Qed.

Lemma discovery_probes_iff_stale_or_empty_witness :
  let st := {| _cachedServers := [serverOn 5002 "gpt2-small"];
               _lastDiscovery := 1700000000000;
               healthRequests := portsToCheck |} in
  discoverInferenceServers localConfig (allDown 1700000030000) st
  = ([], {| _cachedServers := []; _lastDiscovery := 1700000030000;
            healthRequests := portsToCheck ++ portsToCheck |}).
Proof.
  intros st.
  destruct (discovery_probes_iff_stale_or_empty localConfig (allDown 1700000030000) st)
    as (_ & H & _).
  rewrite H; [reflexivity|]. left. simpl. unfold DISCOVERY_CACHE_TTL. lia.
Defined.

Lemma probed_round_wellFormed cfg w :
  (forall d, In d (fst (probeAll cfg w portsToCheck)) -> probedDescriptor cfg d)
  /\ NoDup (map port (fst (probeAll cfg w portsToCheck))).
Proof.
  split.
  - intros d Hd. apply probeAll_In in Hd. destruct Hd as (Hp & hd & Hf & Hd).
    unfold probedDescriptor. rewrite Hd. simpl.
    repeat split; auto. apply reportedModelId_nonempty.
  - eapply Permutation_NoDup; [symmetry; apply probeAll_ports|].
    apply NoDup_filter, portsToCheck_NoDup.
Qed.

Lemma discover_wellFormed cfg w st :
  wellFormedCache cfg st -> wellFormedCache cfg (snd (discoverInferenceServers cfg w st)).
Proof.
  intros Hwf.
  destruct ((now w - _lastDiscovery st <? DISCOVERY_CACHE_TTL)%Z
            && (0 <? List.length (_cachedServers st))%nat) eqn:Hc.
  - now rewrite (discover_cached _ _ _ Hc).
  - rewrite (discover_probes _ _ _ Hc). unfold wellFormedCache.
    cbn [snd _cachedServers]. apply probed_round_wellFormed.
Qed.

Lemma discover_returns_cache cfg w st :
  _cachedServers (snd (discoverInferenceServers cfg w st))
  = fst (discoverInferenceServers cfg w st).
Proof.
  destruct ((now w - _lastDiscovery st <? DISCOVERY_CACHE_TTL)%Z
            && (0 <? List.length (_cachedServers st))%nat) eqn:Hc.
  - now rewrite (discover_cached _ _ _ Hc).
  - now rewrite (discover_probes _ _ _ Hc).
Qed.

(** X8. The cache keeps its shape: the initial cache and a cleared cache
    hold only probed descriptors, at most one for a port, and a call of
    [discoverInferenceServers] on such a cache leaves such a cache and
    returns such descriptors: healthy, on a scanned port, with a non-empty
    model identifier and the URL built for the port. *)
Theorem cache_stays_well_formed cfg :
  wellFormedCache cfg initialCache
  /\ (forall st, wellFormedCache cfg (clearInferenceServerCache st))
  /\ (forall w st,
        wellFormedCache cfg st ->
        wellFormedCache cfg (snd (discoverInferenceServers cfg w st))
        /\ (forall d, In d (fst (discoverInferenceServers cfg w st)) ->
                      probedDescriptor cfg d)
        /\ NoDup (map port (fst (discoverInferenceServers cfg w st)))).
Proof.
  split; [|split].
  - split; [intros d []|constructor].
  - intros st. split; [intros d []|constructor].
  - intros w st Hwf. pose proof (discover_wellFormed cfg w st Hwf) as H.
    split; [exact H|]. rewrite <- discover_returns_cache. exact H.
Qed.

Lemma cache_stays_well_formed_witness :
  wellFormedCache localConfig
    (snd (discoverInferenceServers localConfig documentedFlow initialCache)).
Proof.
  destruct (cache_stays_well_formed localConfig) as (H0 & _ & H).
  apply (H documentedFlow initialCache H0).
Defined.

(** X9. Clearing the cache sends no request and, done twice, does no more
    than done once; the call of [discoverInferenceServers] that follows
    always runs a round of probes, whatever the clock shows and whatever
    the cache held. *)
Theorem clear_forces_next_round cfg w st :
  healthRequests (clearInferenceServerCache st) = healthRequests st
  /\ clearInferenceServerCache (clearInferenceServerCache st)
     = clearInferenceServerCache st
  /\ discoverInferenceServers cfg w (clearInferenceServerCache st)
     = (fst (probeAll cfg w portsToCheck),
        {| _cachedServers := fst (probeAll cfg w portsToCheck);
           _lastDiscovery := now w;
           healthRequests := healthRequests st ++ portsToCheck |}).
Proof.
  repeat split.
  rewrite discover_probes by (simpl; apply andb_false_r). reflexivity.
Qed.

(** ** Matcher and dynamic host *)

Lemma matcher_state cfg w st requested :
  snd (getInferenceServerForModel cfg w st requested)
  = snd (discoverInferenceServers cfg w st).
Proof.
  rewrite matcher_unfold. cbv zeta.
  destruct (find _ _); [reflexivity|]. now destruct (find _ _).
Qed.

Lemma matcher_result cfg w st requested r :
  fst (getInferenceServerForModel cfg w st requested) = Some r ->
  exists d, In d (fst (discoverInferenceServers cfg w st))
            /\ health d = true /\ url d = r.
Proof.
  rewrite matcher_unfold. cbv zeta.
  destruct (find (fun server => health server && isModelMatch (modelId server) requested) _)
    as [m|] eqn:Em.
  - simpl. intros H. injection H as <-. apply find_some in Em. destruct Em as [Hin Hm].
    apply andb_prop in Hm. exists m. tauto.
  - destruct (find (fun server => health server) _) as [f|] eqn:Ef; simpl; [|discriminate].
    intros H. injection H as <-. apply find_some in Ef. exists f. tauto.
Qed.

(** X10. Whatever the matcher returns is the URL of a healthy descriptor of
    the snapshot, and its effect on the cache is that of the discovery call
    it makes.  When no healthy descriptor has the normalized identifier of
    the request, it returns the URL of the first healthy descriptor of the
    snapshot.  On a well-formed cache the answer is [null] only for an
    empty snapshot. *)
Theorem matcher_returns_snapshot_url cfg w st requested :
  let servers := fst (discoverInferenceServers cfg w st) in
  snd (getInferenceServerForModel cfg w st requested)
  = snd (discoverInferenceServers cfg w st)
  /\ (forall r, fst (getInferenceServerForModel cfg w st requested) = Some r ->
                exists d, In d servers /\ health d = true /\ url d = r)
  /\ ((forall d, In d servers -> health d = true ->
                 normalizeModelName (modelId d) <> normalizeModelName requested) ->
      fst (getInferenceServerForModel cfg w st requested)
      = option_map url (find (fun server => health server) servers))
  /\ (wellFormedCache cfg st ->
      (fst (getInferenceServerForModel cfg w st requested) = None <-> servers = [])).
Proof.
  cbv zeta. split; [apply matcher_state|]. split; [apply matcher_result|]. split.
  - intros Hno. rewrite matcher_unfold. cbv zeta.
    replace (find (fun server => health server && isModelMatch (modelId server) requested)
               (fst (discoverInferenceServers cfg w st))) with (@None InferenceServerInfo).
    + now destruct (find _ _).
    + symmetry. apply find_none_iff. intros d Hd.
      destruct (health d) eqn:Eh; [|reflexivity]. simpl.
      rewrite isModelMatch_normalized. apply String.eqb_neq. now apply Hno.
  - intros Hwf.
    pose proof (discover_wellFormed cfg w st Hwf) as [Hall _].
    rewrite discover_returns_cache in Hall.
    rewrite matcher_unfold. cbv zeta.
    destruct (fst (discoverInferenceServers cfg w st)) as [|d l] eqn:E.
    + simpl. tauto.
    + split; [|discriminate]. intros H. exfalso.
      destruct (Hall d (or_introl eq_refl)) as (Hh & _).
      destruct (find (fun server => health server && isModelMatch (modelId server) requested)
                  (d :: l)); [discriminate|].
      simpl in H. rewrite Hh in H. discriminate.
Qed.

Lemma matcher_returns_snapshot_url_witness :
  fst (getInferenceServerForModel localConfig documentedFlow initialCache "llama-3")
  = Some "http://127.0.0.1:5002".
Proof.
  destruct (matcher_returns_snapshot_url localConfig documentedFlow initialCache "llama-3")
    as (_ & _ & H & _).
  rewrite H; [reflexivity|].
  intros d Hd _. vm_compute in Hd.
  destruct Hd as [<-|[<-|[]]]; vm_compute; discriminate.
Defined.

Lemma default_host_nonempty cfg : LOCALHOST_INFERENCE_HOST cfg <> "".
Proof. unfold LOCALHOST_INFERENCE_HOST. destruct (IS_DOCKER_COMPOSE cfg); discriminate. Qed.

(** X11. [getDynamicLocalhostInferenceHost] never returns the empty string.
    Without a model identifier, or with the empty one, it returns the
    default host and neither reads the cache nor sends a request.
    Otherwise its result is the default host or the URL of a healthy
    descriptor of the snapshot.  The default host is the URL the prober
    builds for port 5002. *)
Theorem dynamic_host_total cfg w st requested :
  fst (getDynamicLocalhostInferenceHost cfg w st requested) <> ""
  /\ (requested = None \/ requested = Some "" ->
      getDynamicLocalhostInferenceHost cfg w st requested
      = (LOCALHOST_INFERENCE_HOST cfg, st))
  /\ (fst (getDynamicLocalhostInferenceHost cfg w st requested)
      = LOCALHOST_INFERENCE_HOST cfg
      \/ exists d, In d (fst (discoverInferenceServers cfg w st))
                   /\ health d = true
                   /\ url d = fst (getDynamicLocalhostInferenceHost cfg w st requested))
  /\ LOCALHOST_INFERENCE_HOST cfg = portUrl cfg 5002.
Proof.
  assert (Hshape :
    fst (getDynamicLocalhostInferenceHost cfg w st requested) = LOCALHOST_INFERENCE_HOST cfg
    \/ exists m r, requested = Some m
                   /\ fst (getInferenceServerForModel cfg w st m) = Some r
                   /\ r <> ""
                   /\ fst (getDynamicLocalhostInferenceHost cfg w st requested) = r).
  { unfold getDynamicLocalhostInferenceHost.
    destruct requested as [m|]; simpl; [|now left].
    destruct (String.eqb m ""); simpl; [now left|].
    destruct (getInferenceServerForModel cfg w st m) as [[r|] st'] eqn:E; simpl; [|now left].
    destruct (String.eqb r "") eqn:Er; simpl; [now left|].
    right. exists m, r. apply String.eqb_neq in Er. rewrite E. repeat split; auto. }
  split; [|split; [|split]].
  - destruct Hshape as [->|(m & r & _ & _ & Hr & ->)]; [apply default_host_nonempty|exact Hr].
  - intros [->| ->]; reflexivity.
  - destruct Hshape as [H|(m & r & -> & Hm & Hr & Hres)]; [now left|right].
    rewrite Hres. now apply (matcher_result cfg w st m).
  - unfold LOCALHOST_INFERENCE_HOST, portUrl. now destruct (IS_DOCKER_COMPOSE cfg).
Qed.

Lemma dynamic_host_total_witness :
  getDynamicLocalhostInferenceHost localConfig documentedFlow initialCache (Some "")
  = ("http://127.0.0.1:5002", initialCache).
Proof.
  apply (dynamic_host_total localConfig documentedFlow initialCache (Some "")).
  now right.
Defined.

(** ** Host selectors in the two routing modes *)

(** X12. In static mode no selector reads the clock, the network or the
    cache: the cache comes back as it was, and the result is the same in
    every world and for every cache. *)
Theorem static_selectors_leave_cache {User} fuel cfg (ext : Collaborators User)
    rng w st modelId name user :
  USE_LOCALHOST_INFERENCE cfg = false ->
  (snd (getOneRandomServerHostForSourceSet cfg ext rng w st modelId name user) = st
   /\ snd (getOneRandomServerHostForSource cfg ext rng w st modelId name user) = st
   /\ snd (getOneRandomServerHostForModel cfg ext w st modelId) = st
   /\ snd (getTwoRandomServerHostsForModel fuel cfg ext rng w st modelId) = st
   /\ snd (getTwoRandomServerHostsForSourceSet fuel cfg ext rng w st modelId name user) = st)
  /\ (forall w' st',
        fst (getOneRandomServerHostForSourceSet cfg ext rng w st modelId name user)
        = fst (getOneRandomServerHostForSourceSet cfg ext rng w' st' modelId name user)
        /\ fst (getOneRandomServerHostForSource cfg ext rng w st modelId name user)
           = fst (getOneRandomServerHostForSource cfg ext rng w' st' modelId name user)
        /\ fst (getOneRandomServerHostForModel cfg ext w st modelId)
           = fst (getOneRandomServerHostForModel cfg ext w' st' modelId)
        /\ fst (getTwoRandomServerHostsForModel fuel cfg ext rng w st modelId)
           = fst (getTwoRandomServerHostsForModel fuel cfg ext rng w' st' modelId)
        /\ fst (getTwoRandomServerHostsForSourceSet fuel cfg ext rng w st modelId name user)
           = fst (getTwoRandomServerHostsForSourceSet fuel cfg ext rng w' st' modelId name user)).
Proof.
  intros Hs.
  unfold getOneRandomServerHostForSourceSet, getOneRandomServerHostForSource,
    getOneRandomServerHostForModel, getTwoRandomServerHostsForModel,
    getTwoRandomServerHostsForSourceSet.
  rewrite Hs.
  destruct (userCanAccessModelAndSourceSet ext modelId name user true); simpl;
    destruct (getSourceInferenceHosts ext modelId name user) as [hosts|]; simpl;
    try destruct (nth_error hosts _); simpl;
    destruct (List.length (getAllServerHostsForSourceSet ext modelId name) =? 0)%nat;
    destruct (List.length (getAllServerHostsForModel ext modelId) =? 0)%nat;
    simpl; repeat split.
Qed.

Lemma static_selectors_leave_cache_witness :
  snd (getOneRandomServerHostForModel staticConfig
         (sampleCatalog true ["http://10.0.0.1:5002"]) documentedFlow initialCache
         "gemma-2-2b") = initialCache.
Proof.
  apply (static_selectors_leave_cache 4 staticConfig
           (sampleCatalog true ["http://10.0.0.1:5002"]) sampleDraws documentedFlow
           initialCache "gemma-2-2b" "gemmascope-res-16k" None eq_refl).
Defined.

Lemma dynamic_selectors_unfold {User} fuel cfg (ext : Collaborators User)
    rng w st modelId name user :
  USE_LOCALHOST_INFERENCE cfg = true ->
  let h := fst (getDynamicLocalhostInferenceHost cfg w st (Some modelId)) in
  let st' := snd (getDynamicLocalhostInferenceHost cfg w st (Some modelId)) in
  getOneRandomServerHostForSource cfg ext rng w st modelId name user
  = (Returned (hostString h), st')
  /\ getOneRandomServerHostForModel cfg ext w st modelId = (Returned (hostString h), st')
  /\ getTwoRandomServerHostsForModel fuel cfg ext rng w st modelId
     = (Some (Returned (hostString h, hostString h)), st')
  /\ getTwoRandomServerHostsForSourceSet fuel cfg ext rng w st modelId name user
     = (Some (Returned (hostString h, hostString h)), st')
  /\ getOneRandomServerHostForSourceSet cfg ext rng w st modelId name user
     = if userCanAccessModelAndSourceSet ext modelId name user true
       then (Returned (hostString h), st') else (Returned null, st).
Proof.
  intros Hd. cbv zeta.
  unfold getOneRandomServerHostForSourceSet, getOneRandomServerHostForSource,
    getOneRandomServerHostForModel, getTwoRandomServerHostsForModel,
    getTwoRandomServerHostsForSourceSet.
  rewrite Hd.
  destruct (getDynamicLocalhostInferenceHost cfg w st (Some modelId)) as [h st'].
  destruct (userCanAccessModelAndSourceSet ext modelId name user true);
    cbn [negb fst snd]; repeat split.
Qed.

(** X13. In dynamic mode, whatever a host selector returns is the dynamic
    host of the model: a dual-host selector returns it twice, and the
    single-host source-set selector returns it or, when access is denied,
    [null].  The outcome does not depend on the host catalog, on the source
    or set named, on the random source or on how long the loop may run; for
    the single-host source-set selector it depends on them only through the
    answer of the access check. *)
Theorem dynamic_selectors_return_dynamic_host {User} fuel cfg (ext : Collaborators User)
    rng w st modelId name user :
  USE_LOCALHOST_INFERENCE cfg = true ->
  let h := fst (getDynamicLocalhostInferenceHost cfg w st (Some modelId)) in
  (forall v, fst (getOneRandomServerHostForSource cfg ext rng w st modelId name user)
             = Returned v -> v = hostString h)
  /\ (forall v, fst (getOneRandomServerHostForModel cfg ext w st modelId) = Returned v ->
                v = hostString h)
  /\ (forall a b, fst (getTwoRandomServerHostsForModel fuel cfg ext rng w st modelId)
                  = Some (Returned (a, b)) ->
                  a = hostString h /\ b = hostString h)
  /\ (forall a b,
        fst (getTwoRandomServerHostsForSourceSet fuel cfg ext rng w st modelId name user)
        = Some (Returned (a, b)) ->
        a = hostString h /\ b = hostString h)
  /\ (forall v,
        fst (getOneRandomServerHostForSourceSet cfg ext rng w st modelId name user)
        = Returned v ->
        (userCanAccessModelAndSourceSet ext modelId name user true = true
         /\ v = hostString h)
        \/ (userCanAccessModelAndSourceSet ext modelId name user true = false
            /\ v = null))
  /\ (forall (ext' : Collaborators User) rng' fuel' name' user',
        getOneRandomServerHostForSource cfg ext rng w st modelId name user
        = getOneRandomServerHostForSource cfg ext' rng' w st modelId name' user'
        /\ getOneRandomServerHostForModel cfg ext w st modelId
           = getOneRandomServerHostForModel cfg ext' w st modelId
        /\ getTwoRandomServerHostsForModel fuel cfg ext rng w st modelId
           = getTwoRandomServerHostsForModel fuel' cfg ext' rng' w st modelId
        /\ getTwoRandomServerHostsForSourceSet fuel cfg ext rng w st modelId name user
           = getTwoRandomServerHostsForSourceSet fuel' cfg ext' rng' w st modelId name' user'
        /\ (userCanAccessModelAndSourceSet ext modelId name user true
            = userCanAccessModelAndSourceSet ext' modelId name' user' true ->
            getOneRandomServerHostForSourceSet cfg ext rng w st modelId name user
            = getOneRandomServerHostForSourceSet cfg ext' rng' w st modelId name' user')).
Proof.
  intros Hd. cbv zeta.
  destruct (dynamic_selectors_unfold fuel cfg ext rng w st modelId name user Hd)
    as (E1 & E2 & E3 & E4 & E5).
  rewrite E1, E2, E3, E4, E5. cbn [fst].
  split; [intros v H; now injection H as <-|].
  split; [intros v H; now injection H as <-|].
  split; [intros a b H; now injection H as <- <-|].
  split; [intros a b H; now injection H as <- <-|].
  split.
  - destruct (userCanAccessModelAndSourceSet ext modelId name user true);
      cbn [fst]; intros v H; injection H as <-; auto.
  - intros ext' rng' fuel' name' user'.
    destruct (dynamic_selectors_unfold fuel' cfg ext' rng' w st modelId name' user' Hd)
      as (F1 & F2 & F3 & F4 & F5).
    rewrite F1, F2, F3, F4, F5. repeat split. intros ->. reflexivity.
Qed.

Lemma dynamic_selectors_return_dynamic_host_witness :
  hostString "http://127.0.0.1:5005"
  = hostString (fst (getDynamicLocalhostInferenceHost localConfig documentedFlow
                       initialCache (Some "gemma-2-2b-it"))).
Proof.
  destruct (dynamic_selectors_return_dynamic_host 0 localConfig (sampleCatalog false [])
              sampleDraws documentedFlow initialCache "gemma-2-2b-it" "" None eq_refl)
    as (_ & _ & H & _).
  apply (H (hostString "http://127.0.0.1:5005") (hostString "http://127.0.0.1:5005")).
  reflexivity.
Defined.

(** X14. In static mode the model-scoped single-host selector is
    deterministic: it throws "No hosts found." when the catalog has no host
    for the model, and otherwise returns the first host of the raw list,
    which de-duplication leaves in first place. *)
Theorem model_selector_static_first_host {User} cfg (ext : Collaborators User)
    w st modelId :
  USE_LOCALHOST_INFERENCE cfg = false ->
  (getAllServerHostsForModel ext modelId = [] ->
   getOneRandomServerHostForModel cfg ext w st modelId
   = (Threw (Error "No hosts found."), st))
  /\ (forall h rest,
        getAllServerHostsForModel ext modelId = h :: rest ->
        getOneRandomServerHostForModel cfg ext w st modelId
        = (Returned (hostString h), st)).
Proof.
  intros Hs. unfold getOneRandomServerHostForModel. rewrite Hs. split.
  - intros ->. reflexivity.
  - intros h rest ->. reflexivity.
Qed.

Lemma model_selector_static_first_host_witness :
  getOneRandomServerHostForModel staticConfig
    (sampleCatalog true ["http://10.0.0.2:5002"; "http://10.0.0.1:5002"; "http://10.0.0.2:5002"])
    documentedFlow initialCache "gemma-2-2b"
  = (Returned (hostString "http://10.0.0.2:5002"), initialCache).
Proof.
  destruct (model_selector_static_first_host staticConfig
              (sampleCatalog true
                 ["http://10.0.0.2:5002"; "http://10.0.0.1:5002"; "http://10.0.0.2:5002"])
              documentedFlow initialCache "gemma-2-2b" eq_refl) as [_ H].
  apply (H "http://10.0.0.2:5002" ["http://10.0.0.1:5002"; "http://10.0.0.2:5002"]).
  reflexivity.
Defined.

(** X15. Whatever the single-host source-set selector returns is [null]
    or a string, never [undefined].  In static mode, for a user with
    access, it returns [null] exactly when the source set has no host and
    otherwise one of the hosts of the source set. *)
Theorem source_set_selector_results {User} cfg (ext : Collaborators User)
    rng w st modelId name user :
  let r := fst (getOneRandomServerHostForSourceSet cfg ext rng w st modelId name user) in
  (forall v, r = Returned v -> v = null \/ exists s, v = hostString s)
  /\ (USE_LOCALHOST_INFERENCE cfg = false ->
      userCanAccessModelAndSourceSet ext modelId name user true = true ->
      (r = Returned null <-> getAllServerHostsForSourceSet ext modelId name = [])
      /\ (getAllServerHostsForSourceSet ext modelId name <> [] ->
          exists s, In s (getAllServerHostsForSourceSet ext modelId name)
                    /\ r = Returned (hostString s))).
Proof.
  cbv zeta. unfold getOneRandomServerHostForSourceSet.
  set (hosts := getAllServerHostsForSourceSet ext modelId name).
  assert (Hpick : hosts <> [] ->
                  exists s, In s hosts
                            /\ elementAt hosts (floorRandomTimes (rng 0) (List.length hosts))
                               = hostString s).
  { intros Hne.
    destruct (elementAt_in_range hosts (floorRandomTimes (rng 0) (List.length hosts)))
      as (s & _ & E & Hin).
    - apply floorRandomTimes_bound. destruct hosts; [congruence|simpl; lia].
    - now exists s. }
  split.
  - destruct (userCanAccessModelAndSourceSet ext modelId name user true); simpl.
    + destruct (USE_LOCALHOST_INFERENCE cfg).
      * destruct (getDynamicLocalhostInferenceHost cfg w st (Some modelId)) as [h st'].
        simpl. intros v H. injection H as <-. right. now exists h.
      * destruct hosts as [|a l] eqn:E; simpl.
        -- intros v H. injection H as <-. now left.
        -- destruct Hpick as (s & _ & Es); [discriminate|].
           simpl in Es. rewrite Es. intros v H. injection H as <-. right. now exists s.
    + intros v H. injection H as <-. now left.
  - intros -> ->. simpl.
    destruct hosts as [|a l] eqn:E; simpl.
    + split; [tauto|congruence].
    + destruct Hpick as (s & Hin & Es); [discriminate|].
      simpl in Es. rewrite Es. split.
      * split; discriminate.
      * intros _. now exists s.
Qed.

Lemma source_set_selector_results_witness :
  fst (getOneRandomServerHostForSourceSet staticConfig (sampleCatalog true [])
         sampleDraws documentedFlow initialCache "gemma-2-2b" "gemmascope-res-16k" None)
  = Returned null.
Proof.
  destruct (source_set_selector_results staticConfig (sampleCatalog true [])
              sampleDraws documentedFlow initialCache "gemma-2-2b" "gemmascope-res-16k" None)
    as (_ & H).
  destruct (H eq_refl eq_refl) as (Hnull & _).
  apply Hnull. reflexivity.
Defined.

(** ** Host catalog *)

Lemma flattenHostUrls_In sources u :
  In u (flattenHostUrls sources) <->
  exists source host,
    In source sources /\ In host (Prisma.inferenceHosts source)
    /\ Prisma.hostUrl (Prisma.inferenceHost host) = u.
Proof.
  unfold flattenHostUrls. rewrite in_flat_map. split.
  - intros (source & Hs & Hu). apply in_map_iff in Hu. destruct Hu as (host & E & Hh).
    now exists source, host.
  - intros (source & host & Hs & Hh & E). exists source. split; [exact Hs|].
    apply in_map_iff. now exists host.
Qed.

Lemma flattenHostUrls_length sources :
  List.length (flattenHostUrls sources)
  = list_sum (map (fun source => List.length (Prisma.inferenceHosts source)) sources).
Proof.
  unfold flattenHostUrls. induction sources as [|a l IH]; simpl; [reflexivity|].
  now rewrite length_app, length_map, IH.
Qed.

(** X16. Each of the two catalog queries lists the host URL of every host
    of every source that has the model (and, for the source-set query, the
    set name), once per source and host: the length of either list is the
    sum of the host counts of the matching sources, so a host shared by
    several sources is listed several times.  Every host listed for a
    source set of a model is listed for the model. *)
Theorem catalog_queries_contents {User} (ext : Collaborators User) modelId name :
  (forall u, In u (getAllServerHostsForModel ext modelId) <->
             exists source host,
               In source (sourceTable ext)
               /\ Prisma.modelId source = modelId
               /\ In host (Prisma.inferenceHosts source)
               /\ Prisma.hostUrl (Prisma.inferenceHost host) = u)
  /\ (forall u, In u (getAllServerHostsForSourceSet ext modelId name) <->
                exists source host,
                  In source (sourceTable ext)
                  /\ Prisma.modelId source = modelId
                  /\ Prisma.setName source = name
                  /\ In host (Prisma.inferenceHosts source)
                  /\ Prisma.hostUrl (Prisma.inferenceHost host) = u)
  /\ incl (getAllServerHostsForSourceSet ext modelId name)
          (getAllServerHostsForModel ext modelId)
  /\ List.length (getAllServerHostsForModel ext modelId)
     = list_sum (map (fun source => List.length (Prisma.inferenceHosts source))
                     (filter (fun source => String.eqb (Prisma.modelId source) modelId)
                             (sourceTable ext)))
  /\ List.length (getAllServerHostsForSourceSet ext modelId name)
     = list_sum (map (fun source => List.length (Prisma.inferenceHosts source))
                     (filter (fun source =>
                                String.eqb (Prisma.modelId source) modelId
                                && String.eqb (Prisma.setName source) name)
                             (sourceTable ext))).
Proof.
  assert (Hm : forall u, In u (getAllServerHostsForModel ext modelId) <->
             exists source host,
               In source (sourceTable ext)
               /\ Prisma.modelId source = modelId
               /\ In host (Prisma.inferenceHosts source)
               /\ Prisma.hostUrl (Prisma.inferenceHost host) = u).
  { intros u. unfold getAllServerHostsForModel. rewrite flattenHostUrls_In. split.
    - intros (source & host & Hs & Hh & E). apply filter_In in Hs. destruct Hs as [Hs Hq].
      apply String.eqb_eq in Hq. now exists source, host.
    - intros (source & host & Hs & Hq & Hh & E). exists source, host.
      repeat split; auto. apply filter_In. split; [exact Hs|]. now apply String.eqb_eq. }
  assert (Hn : forall u, In u (getAllServerHostsForSourceSet ext modelId name) <->
                exists source host,
                  In source (sourceTable ext)
                  /\ Prisma.modelId source = modelId
                  /\ Prisma.setName source = name
                  /\ In host (Prisma.inferenceHosts source)
                  /\ Prisma.hostUrl (Prisma.inferenceHost host) = u).
  { intros u. unfold getAllServerHostsForSourceSet. rewrite flattenHostUrls_In. split.
    - intros (source & host & Hs & Hh & E). apply filter_In in Hs. destruct Hs as [Hs Hq].
      apply andb_prop in Hq. destruct Hq as [Hq1 Hq2].
      apply String.eqb_eq in Hq1, Hq2. now exists source, host.
    - intros (source & host & Hs & Hq1 & Hq2 & Hh & E). exists source, host.
      repeat split; auto. apply filter_In. split; [exact Hs|].
      apply andb_true_intro. split; now apply String.eqb_eq. }
  split; [exact Hm|]. split; [exact Hn|]. split.
  - intros u Hu. apply Hm. apply Hn in Hu.
    destruct Hu as (source & host & Hs & Hq1 & _ & Hh & E). now exists source, host.
  - split.
    + unfold getAllServerHostsForModel. apply flattenHostUrls_length.
    + unfold getAllServerHostsForSourceSet. apply flattenHostUrls_length.
Qed.

(** ** Admin route *)

Lemma POST_refresh cfg w st body :
  Route.destructureAction body = Some (Some (Route.JString "refresh")) ->
  Route.POST cfg w st (Some body) =
    ({| Route.status := 200;
        Route.payload :=
          Route.Refreshed true "Inference server cache refreshed"
            (fst (probeAll cfg w portsToCheck))
            (List.length (fst (probeAll cfg w portsToCheck))) |},
     {| _cachedServers := fst (probeAll cfg w portsToCheck);
        _lastDiscovery := now w;
        healthRequests := healthRequests st ++ portsToCheck |}).
Proof.
  intros Hd. unfold Route.POST. rewrite Hd.
  change (Route.isRefresh (Some (Route.JString "refresh"))) with true. cbv iota.
  unfold getAllDiscoveredInferenceServers.
  rewrite discover_probes by (simpl; apply andb_false_r). reflexivity.
Qed.

(** X18. After a POST with action "refresh", a GET that comes less than
    30000 ms later answers with status 200 and the list the refresh probed,
    without sending a request, when that list is not empty; when the
    refresh found no server, the GET runs a round of probes of its own.
    The [total] of the answer is the length of the list. *)
Theorem get_after_refresh cfg w1 w2 st body :
  Route.destructureAction body = Some (Some (Route.JString "refresh")) ->
  (now w2 - now w1 < DISCOVERY_CACHE_TTL)%Z ->
  let st1 := snd (Route.POST cfg w1 st (Some body)) in
  let fresh := fst (probeAll cfg w1 portsToCheck) in
  let again := fst (probeAll cfg w2 portsToCheck) in
  (fresh <> [] ->
   Route.GET cfg w2 st1 =
     ({| Route.status := 200;
         Route.payload := Route.Listing true fresh (List.length fresh) (now w2) |}, st1))
  /\ (fresh = [] ->
      Route.GET cfg w2 st1 =
        ({| Route.status := 200;
            Route.payload := Route.Listing true again (List.length again) (now w2) |},
         {| _cachedServers := again;
            _lastDiscovery := now w2;
            healthRequests := (healthRequests st ++ portsToCheck) ++ portsToCheck |})).
Proof.
  intros Hd Httl. cbv zeta. rewrite (POST_refresh cfg w1 st body Hd). cbn [snd].
  unfold Route.GET, getAllDiscoveredInferenceServers. split.
  - intros Hne. rewrite discover_cached; [reflexivity|].
    cbn [_cachedServers _lastDiscovery]. apply andb_true_intro. split.
    + now apply Z.ltb_lt.
    + now apply nonempty_length.
  - intros He. rewrite discover_probes; [reflexivity|].
    cbn [_cachedServers _lastDiscovery]. rewrite He. apply andb_false_r.
Qed.

Lemma get_after_refresh_witness :
  let body := Route.JObject [("action", Route.JString "refresh")] in
  let later := reporting 1700000020000 [] in
  let st1 := snd (Route.POST localConfig documentedFlow initialCache (Some body)) in
  Route.GET localConfig later st1 =
    ({| Route.status := 200;
        Route.payload :=
          Route.Listing true [serverOn 5002 "gpt2-small"; serverOn 5005 "gemma-2-2b-it"]
            2 1700000020000 |}, st1).
Proof.
  intros body later st1.
  destruct (get_after_refresh localConfig documentedFlow later initialCache body eq_refl)
    as [H _].
  - simpl. unfold DISCOVERY_CACHE_TTL. lia.
  - apply H. discriminate.
Defined.






(** ** The earlier matcher *)

Lemma legacy_unfold cfg w st requested :
  Legacy.getInferenceServerForModel cfg w st requested =
  let servers := fst (discoverInferenceServers cfg w st) in
  let st' := snd (discoverInferenceServers cfg w st) in
  match find (fun server =>
                health server
                && (String.eqb (modelId server) requested
                    || Js.includes requested (modelId server)
                    || Js.includes (modelId server) requested))
             servers with
  | Some exactMatch => (Some (url exactMatch), st')
  | None =>
      match find (fun server => health server) servers with
      | Some fallback => (Some (url fallback), st')
      | None => (None, st')
      end
  end.
Proof.
  unfold Legacy.getInferenceServerForModel.
  destruct (discoverInferenceServers cfg w st) as [servers st']. reflexivity.
Qed.

(** X20. The earlier matcher returns the URL of the first healthy
    descriptor whose identifier contains the request or is contained in it:
    a healthy descriptor [d] related to the request in this way is the one
    returned when no healthy descriptor before it in the snapshot is.  For
    every snapshot and every request it answers [null] exactly when the
    snapshot has no healthy descriptor. *)
Theorem legacy_matcher_containment cfg w st :
  (forall requested pre d post,
     fst (discoverInferenceServers cfg w st) = pre ++ d :: post ->
     health d = true ->
     Js.includes requested (modelId d) = true \/ Js.includes (modelId d) requested = true ->
     (forall x, In x pre -> health x = true ->
                modelId x <> requested
                /\ Js.includes requested (modelId x) = false
                /\ Js.includes (modelId x) requested = false) ->
     fst (Legacy.getInferenceServerForModel cfg w st requested) = Some (url d))
  /\ (forall requested,
        fst (Legacy.getInferenceServerForModel cfg w st requested) = None
        <-> forall x, In x (fst (discoverInferenceServers cfg w st)) -> health x = false).
Proof.
  split.
  - intros requested pre d post Hs Hh Hc Hpre.
    rewrite legacy_unfold. cbv zeta. rewrite Hs.
    set (f := fun server =>
                health server
                && (String.eqb (modelId server) requested
                    || Js.includes requested (modelId server)
                    || Js.includes (modelId server) requested)).
    assert (Hfd : f d = true).
    { unfold f. rewrite Hh. simpl. destruct Hc as [-> | ->];
        [now rewrite orb_true_r|apply orb_true_r]. }
    destruct (find_first f pre d post Hfd) as [_ Hfirst].
    rewrite Hfirst; [reflexivity|].
    intros x Hx. unfold f. destruct (health x) eqn:Ehx; [|reflexivity].
    destruct (Hpre x Hx Ehx) as (H1 & -> & ->).
    apply String.eqb_neq in H1. now rewrite H1.
  - intros requested. rewrite legacy_unfold. cbv zeta.
    set (servers := fst (discoverInferenceServers cfg w st)).
    destruct (find (fun server =>
                      health server
                      && (String.eqb (modelId server) requested
                          || Js.includes requested (modelId server)
                          || Js.includes (modelId server) requested)) servers)
      as [m|] eqn:Em.
    + cbn [fst]. split; [discriminate|]. intros Hall.
      apply find_some in Em. destruct Em as [Hin Hm].
      rewrite (Hall m Hin) in Hm. discriminate.
    + destruct (find (fun server => health server) servers) as [g|] eqn:Eg; cbn [fst].
      * split; [discriminate|]. intros Hall.
        apply find_some in Eg. destruct Eg as [Hin Hg].
        rewrite (Hall g Hin) in Hg. discriminate.
      * split; [|reflexivity]. intros _.
        now apply (find_none_iff (fun server => health server)).
Qed.

Lemma legacy_matcher_containment_witness :
  fst (Legacy.getInferenceServerForModel localConfig documentedFlow initialCache "gemma-2-2b")
  = Some "http://127.0.0.1:5005"
  /\ fst (Legacy.getInferenceServerForModel localConfig (allDown 1700000000000)
            initialCache "gemma-2-2b") = None.
Proof.
  split.
  - apply (proj1 (legacy_matcher_containment localConfig documentedFlow initialCache)
             "gemma-2-2b" [serverOn 5002 "gpt2-small"]
             (serverOn 5005 "gemma-2-2b-it") []).
    + reflexivity.
    + reflexivity.
    + left. reflexivity.
    + intros x [<-|[]] _. vm_compute. repeat split. discriminate.
  - apply (proj2 (legacy_matcher_containment localConfig (allDown 1700000000000)
                    initialCache) "gemma-2-2b").
    intros x Hx. vm_compute in Hx. contradiction.
Defined.

(** ** Dual-host selection for every random source *)

Lemma resample_some rng n randomIndex fuel :
  forall next randomIndex2 r,
    resample fuel rng next n randomIndex randomIndex2 = Some r ->
    r <> randomIndex
    /\ (r = randomIndex2 \/ exists k, r = floorRandomTimes (rng k) n).
Proof.
  induction fuel as [|fuel IH]; intros next i2 r H; [discriminate|].
  simpl in H. destruct (Nat.eqb_spec i2 randomIndex) as [E|E].
  - apply IH in H. destruct H as [Hne [->|Hk]]; split; auto.
    right. now exists next.
  - injection H as <-. auto.
Qed.

Lemma pickTwoHosts_returned fuel rng hosts a b :
  pickTwoHosts fuel rng hosts = Some (Returned (a, b)) ->
  exists h1 h2,
    a = hostString h1 /\ b = hostString h2 /\ In h1 hosts /\ In h2 hosts
    /\ (2 <= List.length (unique hosts) -> h1 <> h2)
    /\ (List.length (unique hosts) < 2 -> h1 = h2).
Proof.
  unfold pickTwoHosts.
  destruct (List.length hosts =? 0)%nat eqn:E0; [discriminate|].
  assert (Hpos : 0 < List.length (unique hosts)).
  { destruct hosts as [|h hosts]; [discriminate|]. unfold unique. simpl. lia. }
  set (u := unique hosts) in *.
  destruct (List.length u <? 2)%nat eqn:E2.
  - apply Nat.ltb_lt in E2. intros H. injection H as <- <-.
    destruct (elementAt_in_range u 0 Hpos) as (h & _ & E & Hin).
    exists h, h. rewrite E. pose proof (proj1 (unique_In hosts h) Hin) as Hin'.
    repeat split; auto. intros H2. fold u in H2. lia.
  - apply Nat.ltb_ge in E2.
    destruct (resample fuel rng 2 (List.length u) _ _) as [r|] eqn:Er; [|discriminate].
    intros H. injection H as <- <-.
    apply resample_some in Er. destruct Er as [Hne Hr].
    assert (Hi : floorRandomTimes (rng 0) (List.length u) < List.length u)
      by (apply floorRandomTimes_bound; lia).
    assert (Hr' : r < List.length u).
    { destruct Hr as [->|[k ->]]; apply floorRandomTimes_bound; lia. }
    destruct (elementAt_in_range u _ Hi) as (h1 & N1 & E1 & I1).
    destruct (elementAt_in_range u r Hr') as (h2 & N2 & E2' & I2).
    exists h1, h2. rewrite E1, E2'.
    pose proof (proj1 (unique_In hosts h1) I1) as I1'.
    pose proof (proj1 (unique_In hosts h2) I2) as I2'.
    repeat split; auto; [|fold u; lia].
    intros _ ->. apply Hne. symmetry.
    apply (proj1 (NoDup_nth_error u) (uniqueFrom_NoDup [] hosts) _ r Hi).
    now rewrite N1, N2.
Qed.

Lemma pickTwoHosts_thrown fuel rng hosts e :
  pickTwoHosts fuel rng hosts = Some (Threw e) ->
  e = Error "No hosts found." /\ hosts = [].
Proof.
  unfold pickTwoHosts.
  destruct hosts as [|h hosts]; simpl.
  - intros H. injection H as <-. auto.
  - destruct (_ <? 2)%nat; [discriminate|].
    destruct (resample _ _ _ _ _ _); discriminate.
Qed.

(** X21. In static mode, whatever the random source gives and however long
    the loop is let run, a pair returned by a dual-host selector consists of
    two hosts of the raw list of the catalog, never [null] or [undefined];
    the two are different whenever the list has two distinct hosts, and the
    same otherwise. *)
Theorem dual_host_static_pairs {User} fuel cfg (ext : Collaborators User)
    rng w st modelId name user a b :
  USE_LOCALHOST_INFERENCE cfg = false ->
  (fst (getTwoRandomServerHostsForModel fuel cfg ext rng w st modelId)
   = Some (Returned (a, b)) ->
   exists h1 h2,
     a = hostString h1 /\ b = hostString h2
     /\ In h1 (getAllServerHostsForModel ext modelId)
     /\ In h2 (getAllServerHostsForModel ext modelId)
     /\ (2 <= List.length (unique (getAllServerHostsForModel ext modelId)) -> h1 <> h2)
     /\ (List.length (unique (getAllServerHostsForModel ext modelId)) < 2 -> h1 = h2))
  /\ (fst (getTwoRandomServerHostsForSourceSet fuel cfg ext rng w st modelId name user)
      = Some (Returned (a, b)) ->
      userCanAccessModelAndSourceSet ext modelId name user true = true
      /\ exists h1 h2,
           a = hostString h1 /\ b = hostString h2
           /\ In h1 (getAllServerHostsForSourceSet ext modelId name)
           /\ In h2 (getAllServerHostsForSourceSet ext modelId name)
           /\ (2 <= List.length (unique (getAllServerHostsForSourceSet ext modelId name)) ->
               h1 <> h2)
           /\ (List.length (unique (getAllServerHostsForSourceSet ext modelId name)) < 2 ->
               h1 = h2)).
Proof.
  intros Hs.
  unfold getTwoRandomServerHostsForModel, getTwoRandomServerHostsForSourceSet.
  rewrite Hs. split.
  - cbn [fst]. apply pickTwoHosts_returned.
  - destruct (userCanAccessModelAndSourceSet ext modelId name user true); cbn [negb fst].
    + intros H. split; [reflexivity|]. now apply pickTwoHosts_returned in H.
    + discriminate.
Qed.

Lemma dual_host_static_pairs_witness :
  exists h1 h2,
    hostString "http://10.0.0.1:5002" = hostString h1
    /\ hostString "http://10.0.0.2:5002" = hostString h2
    /\ h1 <> h2.
Proof.
  destruct (dual_host_static_pairs 4 staticConfig
              (sampleCatalog true
                 ["http://10.0.0.1:5002"; "http://10.0.0.2:5002"; "http://10.0.0.1:5002"])
              sampleDraws documentedFlow initialCache "gemma-2-2b" "gemmascope-res-16k" None
              (hostString "http://10.0.0.1:5002") (hostString "http://10.0.0.2:5002")
              eq_refl) as [H _].
  destruct (H eq_refl) as (h1 & h2 & E1 & E2 & _ & _ & Hd & _).
  exists h1, h2. repeat split; auto.
Defined.

(** X22. What the selectors can throw.  In static mode the model-scoped
    selectors throw nothing but "No hosts found.", and only for a model
    without hosts; the dual-host source-set selector throws nothing but
    "Source set not found.", when access is denied, and "No hosts found.",
    when access is granted and the source set has no host; the
    source-scoped selector throws nothing but "Source not found." and a
    [TypeError]. *)
Theorem selector_errors {User} fuel cfg (ext : Collaborators User)
    rng w st modelId name user e :
  USE_LOCALHOST_INFERENCE cfg = false ->
  (fst (getOneRandomServerHostForModel cfg ext w st modelId) = Threw e ->
   e = Error "No hosts found." /\ getAllServerHostsForModel ext modelId = [])
  /\ (fst (getTwoRandomServerHostsForModel fuel cfg ext rng w st modelId) = Some (Threw e) ->
      e = Error "No hosts found." /\ getAllServerHostsForModel ext modelId = [])
  /\ (fst (getTwoRandomServerHostsForSourceSet fuel cfg ext rng w st modelId name user)
      = Some (Threw e) ->
      (e = Error "Source set not found."
       /\ userCanAccessModelAndSourceSet ext modelId name user true = false)
      \/ (e = Error "No hosts found."
          /\ userCanAccessModelAndSourceSet ext modelId name user true = true
          /\ getAllServerHostsForSourceSet ext modelId name = []))
  /\ (fst (getOneRandomServerHostForSource cfg ext rng w st modelId name user) = Threw e ->
      (e = Error "Source not found."
       /\ getSourceInferenceHosts ext modelId name user = None)
      \/ (e = TypeError /\ getSourceInferenceHosts ext modelId name user = Some [])).
Proof.
  intros Hs.
  unfold getOneRandomServerHostForModel, getTwoRandomServerHostsForModel,
    getTwoRandomServerHostsForSourceSet, getOneRandomServerHostForSource.
  rewrite Hs. split; [|split; [|split]].
  - destruct (getAllServerHostsForModel ext modelId) as [|h l]; simpl.
    + intros H. injection H as <-. auto.
    + discriminate.
  - cbn [fst]. apply pickTwoHosts_thrown.
  - destruct (userCanAccessModelAndSourceSet ext modelId name user true); cbn [negb fst].
    + intros H. apply pickTwoHosts_thrown in H. right. tauto.
    + intros H. injection H as <-. left. auto.
  - destruct (getSourceInferenceHosts ext modelId name user) as [hosts|]; cbn [fst].
    + destruct (nth_error hosts _) as [h|] eqn:E; cbn [fst]; [discriminate|].
      intros H. injection H as <-. right. split; [reflexivity|].
      apply nth_error_None in E.
      destruct hosts as [|x l]; [reflexivity|].
      pose proof (floorRandomTimes_bound (rng 0) (List.length (x :: l))) as Hb.
      simpl in Hb, E. lia.
    + intros H. injection H as <-. left. auto.
Qed.

Lemma selector_errors_witness :
  getAllServerHostsForModel (sampleCatalog true []) "gemma-2-2b" = [].
Proof.
  destruct (selector_errors 4 staticConfig (sampleCatalog true []) sampleDraws
              documentedFlow initialCache "gemma-2-2b" "gemmascope-res-16k" None
              (Error "No hosts found.") eq_refl) as (H & _).
  apply H. reflexivity.
Defined.
